(** * CO2 reading acquisition and normalization

    A shallow embedding of the two copies of the fetch-and-normalize routine
    of the repository:

    - [src/App.tsx], [fetchCurrentCo2] (the interactive app), and
    - [src/scripts/update-co2.mjs] (the batch updater, a module whose top
      level is the program).

    Both receive the decoded body of an HTTP response, an arbitrary JSON
    value, and probe it with [typeof], truthiness tests, optional chaining
    and [Array.isArray].  The embedding therefore keeps JavaScript's loosely
    typed values and the exact tests the source performs on them. *)

From Stdlib Require Import Bool List String Ascii NArith.
From Stdlib Require Import DecimalString.
From Stdlib Require Import Floats.PrimFloat.
Import ListNotations.
Open Scope string_scope.

(** ** JavaScript values that JSON can carry *)

#[local] Set Warnings "-register-all".

(** The result of [response.json()] or [JSON.parse].  Numbers are IEEE
    binary64 values, as in JavaScript; strings stand for the UTF-8 bytes of
    the JavaScript string.  An object lists its own properties; [lookup]
    returns the first binding of a key. *)
Inductive value : Type :=
| JNull
| JBool (b : bool)
| JNum (n : float)
| JStr (s : string)
| JArr (items : list value)
| JObj (props : list (string * value)).

(** A JavaScript expression evaluates to a JSON value or to [undefined],
    which JSON never carries: [None] is [undefined]. *)
Definition jsval : Type := option value.

Inductive jstype : Type := TUndefined | TObject | TBoolean | TNumber | TString.

Definition jstype_eqb (a b : jstype) : bool :=
  match a, b with
  | TUndefined, TUndefined | TObject, TObject | TBoolean, TBoolean
  | TNumber, TNumber | TString, TString => true
  | _, _ => false
  end.

(** [typeof v]; [typeof null] and the type of an array are ['object']. *)
Definition typeof (v : jsval) : jstype :=
  match v with
  | None => TUndefined
  | Some JNull => TObject
  | Some (JBool _) => TBoolean
  | Some (JNum _) => TNumber
  | Some (JStr _) => TString
  | Some (JArr _) => TObject
  | Some (JObj _) => TObject
  end.

(** ToBoolean, the test behind [!v], [a && b] and [if (v)]. *)
Definition ToBoolean (v : jsval) : bool :=
  match v with
  | None => false
  | Some JNull => false
  | Some (JBool b) => b
  | Some (JNum n) => negb (is_zero n || is_nan n)
  | Some (JStr s) => negb (s =? "")
  | Some (JArr _) => true
  | Some (JObj _) => true
  end.

(** [v === 'lit'] against a string literal. *)
Definition strict_eq_str (v : jsval) (lit : string) : bool :=
  match v with Some (JStr s) => s =? lit | _ => false end.

(** [v === undefined || v === null], the test of [??] and [?.]. *)
Definition nullish (v : jsval) : bool :=
  match v with None => true | Some JNull => true | Some _ => false end.

(** [a ?? b] *)
Definition coalesce (a b : jsval) : jsval := if nullish a then b else a.

Fixpoint lookup (k : string) (props : list (string * value)) : jsval :=
  match props with
  | [] => None
  | (k', v) :: rest => if k' =? k then Some v else lookup k rest
  end.

(** [v.k] on a value that is not [null], for the property names the source
    reads ([output], [content], [type], [json], [text], [output_text], [ppm],
    [source], [timestamp]): none of them is defined on a built-in prototype,
    so the read finds an own property of an object and is [undefined] on
    everything else. *)
Definition get (v : value) (k : string) : jsval :=
  match v with
  | JObj props => lookup k props
  | _ => None
  end.

(** [v?.k] *)
Definition opt_get (v : jsval) (k : string) : jsval :=
  match v with
  | None => None
  | Some JNull => None
  | Some x => get x k
  end.

(** ** Errors *)

(** What a [throw] carries: an [Error] built by the source with its message,
    or an error raised by the platform. *)
Inductive exn : Type :=
| Error (message : string)
| TypeError
| SyntaxError
| FetchRejected
| FsRejected.

Inductive result (A : Type) : Type :=
| OK (a : A)
| Throw (e : exn).
Arguments OK {A} a.
Arguments Throw {A} e.

Definition bind {A B : Type} (r : result A) (k : A -> result B) : result B :=
  match r with
  | OK a => k a
  | Throw e => Throw e
  end.

Notation "x <- r ;; k" := (bind r (fun x => k))
  (at level 61, r at next level, right associativity).

Definition succeeded {A : Type} (r : result A) : bool :=
  match r with OK _ => true | Throw _ => false end.

(** [v.k] where [v] may be [null]: reading a property of [null] throws. *)
Definition get_prop (v : value) (k : string) : result jsval :=
  match v with
  | JNull => Throw TypeError
  | _ => OK (get v k)
  end.

(** [try { body } catch (error) { throw new Error(message) }] *)
Definition try_catch_rethrow {A : Type} (body : result A) (message : string) : result A :=
  match body with
  | OK a => OK a
  | Throw _ => Throw (Error message)
  end.

(** ** The platform's built-in functions *)

(** The source calls [JSON.parse], [Number] and (through template literals
    and [JSON.stringify]) the number-to-string conversion.  They belong to
    the JavaScript engine, not to the repository, and are taken as an
    interface:
    - [JSON_parse s] is [JSON.parse] on a string, [None] when it throws a
      [SyntaxError];
    - [StringToNumber s] is the numeric value of a string (ECMAScript
      StringToNumber), [nan] when the string is not a numeric literal;
    - [NumberToString n] is [Number::toString] in base ten. *)
Class Platform : Type := {
  JSON_parse : string -> option value;
  StringToNumber : string -> float;
  NumberToString : float -> string
}.

(** ** Conversions *)

(** [Array.prototype.join] with the separator [","], given the conversion
    of one element. *)
Fixpoint join (element : value -> result string) (l : list value) : result string :=
  match l with
  | [] => OK ""
  | x :: rest =>
      s <- element x ;;
      match rest with
      | [] => OK s
      | _ :: _ => r <- join element rest ;; OK (s ++ "," ++ r)
      end
  end.

Section Conversions.
Context `{Platform}.

(** ToString on a JSON value.  An array is joined with commas, [null]
    elements giving the empty string.  An object takes the inherited
    [Object.prototype.toString] unless it has an own property named
    [toString]: that one shadows the inherited method, is not callable
    (JSON carries no functions), and the conversion throws a TypeError. *)
Fixpoint ToString (v : value) : result string :=
  match v with
  | JNull => OK "null"
  | JBool b => OK (if b then "true" else "false")
  | JNum n => OK (NumberToString n)
  | JStr s => OK s
  | JArr items =>
      join (fun x => match x with JNull => OK "" | _ => ToString x end) items
  | JObj props =>
      match lookup "toString" props with
      | Some _ => Throw TypeError
      | None => OK "[object Object]"
      end
  end.

(** [Number(v)]: ToNumber.  Arrays and objects go through ToPrimitive,
    which ends in the same string conversion as [ToString]. *)
Definition Number (v : jsval) : result float :=
  match v with
  | None => OK nan
  | Some JNull => OK zero
  | Some (JBool b) => OK (if b then one else zero)
  | Some (JNum n) => OK n
  | Some (JStr s) => OK (StringToNumber s)
  | Some x => s <- ToString x ;; OK (StringToNumber s)
  end.

(** [JSON.parse(v)]: the argument is converted to a string first. *)
Definition JSON_parse_value (v : value) : result value :=
  s <- ToString v ;;
  match JSON_parse s with
  | Some r => OK r
  | None => Throw SyntaxError
  end.

End Conversions.

(** [Number.isFinite(n)] on a number. *)
Definition isFinite (n : float) : bool := is_finite n.

(** ** The tier that produced a candidate *)

(** Ghost information: which branch of the source's [if]/[else] produced the
    candidate object, the structured item's [json] or the parsed text. *)
Inductive tier : Type := Structured | Text.

(** ** The interactive app: [src/App.tsx] *)

Module App.

(** The [message] of each [Error] the source constructs. *)
Definition MISSING_KEY : string :=
  "Missing OpenAI API key. Provide EXPO_PUBLIC_OPENAI_API_KEY in your environment or set expo.extra.openaiApiKey in app.json.".
Definition NO_CONTENT : string := "OpenAI did not return any textual content.".
Definition PARSE_FAILED : string := "Failed to parse OpenAI response as JSON.".
Definition MISSING_FIELDS : string := "OpenAI response JSON was missing required fields.".

(** [item.content ?? []] followed by the one-level flattening of
    [flatMap]: an array is spliced in, any other value is kept as one
    element. *)
Definition content_of (item : value) : result (list value) :=
  c <- get_prop item "content" ;;
  match coalesce c (Some (JArr [])) with
  | Some (JArr l) => OK l
  | Some v => OK [v]
  | None => OK []
  end.

Fixpoint flatMap_content (items : list value) : result (list value) :=
  match items with
  | [] => OK []
  | item :: rest =>
      l <- content_of item ;;
      r <- flatMap_content rest ;;
      OK (l ++ r)%list
  end.

(** [(json.output ?? []).flatMap((item) => item.content ?? [])]: a value
    that is not an array has no [flatMap] method, and the call throws. *)
Definition contentItems (json : value) : result (list value) :=
  output <- get_prop json "output" ;;
  match coalesce output (Some (JArr [])) with
  | Some (JArr items) => flatMap_content items
  | _ => Throw TypeError
  end.

Definition isJsonContent (item : value) : bool :=
  if negb (ToBoolean (Some item)) || negb (jstype_eqb (typeof (Some item)) TObject)
  then false
  else
    let maybeType := get item "type" in
    strict_eq_str maybeType "json" || strict_eq_str maybeType "json_schema".

Definition isTextContent (item : value) : bool :=
  if negb (ToBoolean (Some item)) || negb (jstype_eqb (typeof (Some item)) TObject)
  then false
  else
    let maybeText := get item "text" in
    jstype_eqb (typeof maybeText) TString.

(** [Array.isArray(json.output_text) ? json.output_text[0] : json.output_text] *)
Definition output_text_candidate (json : value) : jsval :=
  let output_text := get json "output_text" in
  match output_text with
  | Some (JArr l) => nth_error l 0
  | _ => output_text
  end.

(** [contentItems.find(isTextContent)?.text ??
     (Array.isArray(json.output_text) ? json.output_text[0] : json.output_text)] *)
Definition rawContentCandidate (json : value) (contentItems : list value) : jsval :=
  coalesce (opt_get (find isTextContent contentItems) "text")
           (output_text_candidate json).

Section Normalizer.
Context `{Platform}.

(** Lines 134-146, the [else] branch: the text candidate is parsed as
    JSON; whatever the parse throws is replaced by the source's own
    error. *)
Definition text_tier (json : value) (contentItems : list value) : result (tier * value) :=
  match rawContentCandidate json contentItems with
  | Some raw =>
      if negb (ToBoolean (Some raw)) then Throw (Error NO_CONTENT)
      else
        parsed <- try_catch_rethrow (JSON_parse_value raw) PARSE_FAILED ;;
        OK (Text, parsed)
  | None => Throw (Error NO_CONTENT)
  end.

(** Lines 128-147: the candidate object [parsed], with the branch that
    produced it. *)
Definition candidate (json : value) : result (tier * value) :=
  contentItems <- contentItems json ;;
  let structuredContent := find isJsonContent contentItems in
  let j := opt_get structuredContent "json" in
  match j with
  | Some parsed =>
      if ToBoolean j && jstype_eqb (typeof j) TObject
      then OK (Structured, parsed)
      else text_tier json contentItems
  | None => text_tier json contentItems
  end.

(** Lines 149-153: the check on [parsed], which is returned as it is. *)
Definition validate (parsed : value) : result value :=
  ppm <- get_prop parsed "ppm" ;;
  if negb (jstype_eqb (typeof ppm) TNumber)
     || negb (ToBoolean (get parsed "source"))
     || negb (ToBoolean (get parsed "timestamp"))
  then Throw (Error MISSING_FIELDS)
  else OK parsed.

(** Lines 107-153 of [fetchCurrentCo2]: from the decoded body to the
    returned reading. *)
Definition normalize (json : value) : result value :=
  c <- candidate json ;;
  validate (snd c).

End Normalizer.

End App.

(** ** The batch updater: [src/scripts/update-co2.mjs] *)

Module Script.

Definition MISSING_KEY : string := "Missing OPENAI_API_KEY environment variable.".
Definition NO_CONTENT : string := "OpenAI response did not include usable content.".
Definition PARSE_FAILED : string := "Failed to parse OpenAI response JSON.".
Definition MISSING_FIELDS : string := "OpenAI response JSON is missing required fields.".

(** The three validated fields, lines 88-90. *)
Record Reading : Type := {
  ppm : float;
  source : string;
  timestamp : string
}.

(** Line 62: [Array.isArray(json.output) ? json.output : []] *)
Definition outputItems (json : value) : result (list value) :=
  output <- get_prop json "output" ;;
  OK (match output with
      | Some (JArr items) => items
      | _ => []
      end).

(** Line 63: [Array.isArray(item?.content) ? item.content : []], flattened. *)
Definition contentItems (outputItems : list value) : list value :=
  flat_map (fun item =>
              match opt_get (Some item) "content" with
              | Some (JArr l) => l
              | _ => []
              end) outputItems.

(** Lines 65-67, the predicate given to [find]. *)
Definition isStructuredItem (item : value) : bool :=
  ToBoolean (Some item)
  && jstype_eqb (typeof (Some item)) TObject
  && (strict_eq_str (get item "type") "json"
      || strict_eq_str (get item "type") "json_schema").

(** Line 72, the predicate given to [find]. *)
Definition isTextItem (item : value) : bool :=
  ToBoolean (Some item)
  && jstype_eqb (typeof (Some item)) TObject
  && jstype_eqb (typeof (get item "text")) TString.

Definition isStringEntry (entry : value) : bool :=
  jstype_eqb (typeof (Some entry)) TString.

(** Line 75:
    [Array.isArray(json.output_text)
       ? json.output_text.find((entry) => typeof entry === 'string')
       : json.output_text] *)
Definition output_text_candidate (json : value) : jsval :=
  let output_text := get json "output_text" in
  match output_text with
  | Some (JArr l) => find isStringEntry l
  | _ => output_text
  end.

(** Lines 72-75: [textItem?.text ?? (...)], with the expression of line 75
    on the right. *)
Definition fallbackText (json : value) (contentItems : list value) : jsval :=
  let textItem := find isTextItem contentItems in
  coalesce (opt_get textItem "text") (output_text_candidate json).

(** Line 77, negated: [fallbackText && typeof fallbackText === 'string']. *)
Definition usable (fallbackText : jsval) : bool :=
  ToBoolean fallbackText && jstype_eqb (typeof fallbackText) TString.

Section Normalizer.
Context `{Platform}.

(** Lines 71-86, the body of [if (!reading)]. *)
Definition text_tier (json : value) (contentItems : list value) : result (tier * jsval) :=
  let fallbackText := fallbackText json contentItems in
  if negb (usable fallbackText) then Throw (Error NO_CONTENT)
  else
    match fallbackText with
    | Some (JStr text) =>
        match JSON_parse text with
        | Some reading => OK (Text, Some reading)
        | None => Throw (Error PARSE_FAILED)
        end
    | _ => Throw (Error NO_CONTENT)   (* not reached: a usable value is a string *)
    end.

(** Lines 62-86: the candidate [reading], with the branch that produced
    it. *)
Definition candidate (json : value) : result (tier * jsval) :=
  outputItems <- outputItems json ;;
  let contentItems := contentItems outputItems in
  let structuredItem := find isStructuredItem contentItems in
  let reading := opt_get structuredItem "json" in
  if negb (ToBoolean reading) then text_tier json contentItems
  else OK (Structured, reading).

(** Lines 88-94. *)
Definition validate (reading : jsval) : result Reading :=
  ppm <- Number (opt_get reading "ppm") ;;
  let source :=
    match opt_get reading "source" with
    | Some (JStr s) => Some s
    | _ => None
    end in
  let timestamp :=
    match opt_get reading "timestamp" with
    | Some (JStr s) => Some s
    | _ => None
    end in
  match source, timestamp with
  | Some source, Some timestamp =>
      if negb (isFinite ppm) || (source =? "") || (timestamp =? "")
      then Throw (Error MISSING_FIELDS)
      else OK {| ppm := ppm; source := source; timestamp := timestamp |}
  | _, _ => Throw (Error MISSING_FIELDS)
  end.

(** Lines 60-94: from the decoded body to the validated fields. *)
Definition normalize (json : value) : result Reading :=
  c <- candidate json ;;
  validate (snd c).

End Normalizer.

End Script.

(** ** The world of a run and its observable effects *)

(** What [fetch] resolves to: [response.ok], [response.status],
    [response.statusText] and the body text. *)
Record HttpResponse : Type := {
  ok : bool;
  status : N;
  statusText : string;
  body : string
}.

(** Everything a run reads from outside: the environment variables
    ([undefined] when unset), the [expo.extra.openaiApiKey] entry of the
    application configuration, the answer of the remote endpoint ([None]
    when [fetch] rejects), the wall clock as [new Date().toISOString()]
    renders it, and whether [writeFile] rejects. *)
Record World : Type := {
  EXPO_PUBLIC_OPENAI_API_KEY : option string;
  OPENAI_API_KEY : option string;
  extra_openaiApiKey : option string;
  endpoint : option HttpResponse;
  now_toISOString : string;
  writeFile_rejects : bool
}.

(** The calls a run makes to the outside, in order. *)
Inductive event : Type :=
| Fetch (url : string) (authorization : string)
| WriteFile (path : string) (content : string)
| ConsoleLog (line : string).

(** A computation that may throw and logs its outside calls. *)
Definition io (A : Type) : Type := (list event * result A)%type.

Definition io_throw {A : Type} (e : exn) : io A := ([], Throw e).

Definition io_lift {A : Type} (r : result A) : io A := ([], r).

Definition io_bind {A B : Type} (m : io A) (k : A -> io B) : io B :=
  match m with
  | (t, OK a) => let (t', r) := k a in ((t ++ t')%list, r)
  | (t, Throw e) => (t, Throw e)
  end.

Notation "x <~ m ;; k" := (io_bind m (fun x => k))
  (at level 61, m at next level, right associativity).

Definition trace {A : Type} (m : io A) : list event := fst m.
Definition outcome {A : Type} (m : io A) : result A := snd m.

Definition API_URL : string := "https://api.openai.com/v1/responses".

(** [await fetch(url, { headers: { Authorization: authorization }, ... })];
    the request body is a constant of each program and is left out. *)
Definition fetch (w : World) (url authorization : string) : io HttpResponse :=
  ([Fetch url authorization],
   match endpoint w with
   | Some response => OK response
   | None => Throw FetchRejected
   end).

(** [await writeFile(path, content, 'utf8')] *)
Definition writeFile (w : World) (path content : string) : io unit :=
  ([WriteFile path content],
   if writeFile_rejects w then Throw FsRejected else OK tt).

Definition console_log (line : string) : io unit := ([ConsoleLog line], OK tt).

(** The interpolation of [response.status], a non-negative integer. *)
Definition status_text (n : N) : string := NilZero.string_of_uint (N.to_uint n).

(** [`OpenAI request failed: ${response.status} ${response.statusText} - ${errorText}`],
    the same template in both programs. *)
Definition request_failed (response : HttpResponse) : string :=
  "OpenAI request failed: " ++ status_text (status response) ++ " "
  ++ statusText response ++ " - " ++ body response.

Definition is_event_write (e : event) : bool :=
  match e with WriteFile _ _ => true | _ => false end.

(** The content of the file at [path] after the calls of a trace whose
    writes were carried out: [writeFile] replaces the whole content. *)
Fixpoint file_after (path : string) (prior : option string) (t : list event) : option string :=
  match t with
  | [] => prior
  | WriteFile p content :: rest =>
      file_after path (if p =? path then Some content else prior) rest
  | _ :: rest => file_after path prior rest
  end.

(** A non-empty string of a variable that may be unset: [v && v.length > 0],
    and also [!v] negated, on [string | undefined]. *)
Definition nonempty (v : option string) : bool :=
  match v with
  | Some s => negb (s =? "")
  | None => false
  end.

Section Programs.
Context `{Platform}.

(** [await response.json()] *)
Definition response_json (response : HttpResponse) : result value :=
  match JSON_parse (body response) with
  | Some json => OK json
  | None => Throw SyntaxError
  end.

(** [src/App.tsx], lines 41-49. *)
Definition getOpenAIApiKey (w : World) : option string :=
  let envKey :=
    match EXPO_PUBLIC_OPENAI_API_KEY w with
    | Some k => Some k
    | None => OPENAI_API_KEY w
    end in
  if nonempty envKey then envKey
  else
    let extraKey := extra_openaiApiKey w in
    if nonempty extraKey then extraKey else None.

(** [src/App.tsx], lines 51-154. *)
Definition fetchCurrentCo2 (w : World) : io value :=
  match getOpenAIApiKey w with
  | None => io_throw (Error App.MISSING_KEY)
  | Some apiKey =>
      if negb (nonempty (Some apiKey)) then io_throw (Error App.MISSING_KEY)
      else
        response <~ fetch w API_URL ("Bearer " ++ apiKey) ;;
        if negb (ok response) then io_throw (Error (request_failed response))
        else
          json <~ io_lift (response_json response) ;;
          io_lift (App.normalize json)
  end.

End Programs.

(** ** [JSON.stringify(value, null, 2)] *)

Definition dquote : string := String (ascii_of_nat 34) "".
Definition backslash : string := String (ascii_of_nat 92) "".
Definition newline : string := String (ascii_of_nat 10) "".

Definition hex_digit (n : nat) : ascii :=
  nth n (list_ascii_of_string "0123456789abcdef") "0"%char.

(** The escape of one byte inside a JSON string (ECMAScript
    QuoteJSONString): the two-character escapes, [\u00xx] for the other
    control characters, and the byte itself otherwise. *)
Definition escape_byte (c : ascii) : string :=
  let n := nat_of_ascii c in
  if Nat.eqb n 8 then backslash ++ "b"
  else if Nat.eqb n 9 then backslash ++ "t"
  else if Nat.eqb n 10 then backslash ++ "n"
  else if Nat.eqb n 12 then backslash ++ "f"
  else if Nat.eqb n 13 then backslash ++ "r"
  else if Nat.eqb n 34 then backslash ++ dquote
  else if Nat.eqb n 92 then backslash ++ backslash
  else if Nat.ltb n 32
       then backslash ++ "u00" ++ String (hex_digit (Nat.div n 16)) (String (hex_digit (Nat.modulo n 16)) "")
       else String c "".

Fixpoint escape_bytes (s : string) : string :=
  match s with
  | EmptyString => ""
  | String c rest => escape_byte c ++ escape_bytes rest
  end.

Definition QuoteJSONString (s : string) : string := dquote ++ escape_bytes s ++ dquote.

Definition gap : string := "  ".

Section Stringify.
Context `{Platform}.

(** SerializeJSONProperty with a gap of two spaces; [indent] is the
    current indentation.  Properties are written in the order of the list,
    which is the order of creation for the names used here. *)
Fixpoint stringify (indent : string) (v : value) : string :=
  match v with
  | JNull => "null"
  | JBool b => if b then "true" else "false"
  | JNum n => if isFinite n then NumberToString n else "null"
  | JStr s => QuoteJSONString s
  | JArr items =>
      match items with
      | [] => "[]"
      | _ :: _ =>
          "[" ++ newline ++ (indent ++ gap)
          ++ (fix elements (l : list value) : string :=
                match l with
                | [] => ""
                | x :: rest =>
                    stringify (indent ++ gap) x
                    ++ match rest with
                       | [] => ""
                       | _ :: _ => "," ++ newline ++ (indent ++ gap) ++ elements rest
                       end
                end) items
          ++ newline ++ indent ++ "]"
      end
  | JObj props =>
      match props with
      | [] => "{}"
      | _ :: _ =>
          "{" ++ newline ++ (indent ++ gap)
          ++ (fix members (l : list (string * value)) : string :=
                match l with
                | [] => ""
                | (k, x) :: rest =>
                    QuoteJSONString k ++ ": " ++ stringify (indent ++ gap) x
                    ++ match rest with
                       | [] => ""
                       | _ :: _ => "," ++ newline ++ (indent ++ gap) ++ members rest
                       end
                end) props
          ++ newline ++ indent ++ "}"
      end
  end.

Definition JSON_stringify_2 (v : value) : string := stringify "" v.

End Stringify.

(** ** The batch updater as a program *)

Module Updater.
Import Script.

(** [new URL('../data/latest_co2.json', import.meta.url)]: a fixed
    location relative to the script. *)
Definition fileUrl : string := "../data/latest_co2.json".

(** Lines 96-101: [{ ppm, timestamp, source, updated_at }] *)
Definition payload (r : Reading) (updated_at : string) : value :=
  JObj [("ppm", JNum (ppm r));
        ("timestamp", JStr (timestamp r));
        ("source", JStr (source r));
        ("updated_at", JStr updated_at)].

Section Main.
Context `{Platform}.

(** Lines 46-94: the request and the normalization of its answer. *)
Definition acquire (w : World) (API_KEY : string) : io Reading :=
  response <~ fetch w API_URL ("Bearer " ++ API_KEY) ;;
  if negb (ok response) then io_throw (Error (request_failed response))
  else
    json <~ io_lift (response_json response) ;;
    io_lift (normalize json).

(** The module's top level, lines 3-106. *)
Definition main (w : World) : io unit :=
  match OPENAI_API_KEY w with
  | None => io_throw (Error MISSING_KEY)
  | Some API_KEY =>
      if negb (nonempty (Some API_KEY)) then io_throw (Error MISSING_KEY)
      else
        reading <~ acquire w API_KEY ;;
        let payload := payload reading (now_toISOString w) in
        _ <~ writeFile w fileUrl (JSON_stringify_2 payload ++ newline) ;;
        console_log ("Updated CO₂ data: " ++ NumberToString (ppm reading)
                     ++ " ppm at " ++ timestamp reading)
  end.

(** The exit status of the process: an uncaught error at the top level
    of a module ends the process with status 1. *)
Definition exit_status (w : World) : N :=
  match outcome (main w) with
  | OK _ => 0
  | Throw _ => 1
  end.

End Main.

End Updater.

(** ** Vocabulary of the specification *)

(** The error kinds of the specification, and the kind of each error the
    two programs construct, recognised by its message. *)
Inductive ErrorKind : Type :=
| AuthError
| RequestError
| NoContentError
| MalformedJsonError
| ValidationError.

Definition kind_of (e : exn) : option ErrorKind :=
  match e with
  | Error m =>
      if (m =? App.MISSING_KEY) || (m =? Script.MISSING_KEY) then Some AuthError
      else if (m =? App.NO_CONTENT) || (m =? Script.NO_CONTENT) then Some NoContentError
      else if (m =? App.PARSE_FAILED) || (m =? Script.PARSE_FAILED) then Some MalformedJsonError
      else if (m =? App.MISSING_FIELDS) || (m =? Script.MISSING_FIELDS) then Some ValidationError
      else if prefix "OpenAI request failed: " m then Some RequestError
      else None
  | _ => None
  end.

(** The errors a normalizer can throw: its own three, and the TypeError of
    the platform. *)
Definition App_normalize_error (e : exn) : Prop :=
  e = TypeError \/ e = Error App.NO_CONTENT
  \/ e = Error App.PARSE_FAILED \/ e = Error App.MISSING_FIELDS.

Definition Script_normalize_error (e : exn) : Prop :=
  e = TypeError \/ e = Error Script.NO_CONTENT
  \/ e = Error Script.PARSE_FAILED \/ e = Error Script.MISSING_FIELDS.

(** A candidate object with a valid [{ppm, source, timestamp}]: a finite
    number and two non-empty strings, the values [r] holds. *)
Definition valid_object (obj : value) (r : Script.Reading) : Prop :=
  get obj "ppm" = Some (JNum (Script.ppm r))
  /\ isFinite (Script.ppm r) = true
  /\ get obj "source" = Some (JStr (Script.source r))
  /\ Script.source r <> ""
  /\ get obj "timestamp" = Some (JStr (Script.timestamp r))
  /\ Script.timestamp r <> "".

(** The reading the app returns is the candidate object itself: its three
    fields are those of [r]. *)
Definition same_reading (v : value) (r : Script.Reading) : Prop :=
  get v "ppm" = Some (JNum (Script.ppm r))
  /\ get v "source" = Some (JStr (Script.source r))
  /\ get v "timestamp" = Some (JStr (Script.timestamp r)).

(** The two routines agree on a response: both return readings with equal
    fields, or both fail. *)
Definition agree (a : result value) (s : result Script.Reading) : Prop :=
  match a, s with
  | OK v, OK r => same_reading v r
  | Throw _, Throw _ => True
  | _, _ => False
  end.

(** A message names a field when the field's name occurs in it. *)
Definition names_field (message field : string) : bool :=
  match index 0 field message with
  | Some _ => true
  | None => false
  end.

(** The expected content of the updater's file, written out: an object of
    four members, each on a line of its own with an indentation of two
    spaces, closed by a brace and a newline. *)
Definition expected_file `{Platform} (r : Script.Reading) (updated_at : string) : string :=
  "{" ++ newline
  ++ "  " ++ dquote ++ "ppm" ++ dquote ++ ": " ++ NumberToString (Script.ppm r) ++ "," ++ newline
  ++ "  " ++ dquote ++ "timestamp" ++ dquote ++ ": " ++ QuoteJSONString (Script.timestamp r) ++ "," ++ newline
  ++ "  " ++ dquote ++ "source" ++ dquote ++ ": " ++ QuoteJSONString (Script.source r) ++ "," ++ newline
  ++ "  " ++ dquote ++ "updated_at" ++ dquote ++ ": " ++ QuoteJSONString updated_at ++ newline
  ++ "}" ++ newline.

(** ** Responses of the declared shape *)

(** An element of [output] as the declared type [OpenAIResponse] has it: not
    [null], with a [content] that is absent, [null] or an array. *)
Definition shaped_item (item : value) : bool :=
  match item with
  | JNull => false
  | _ =>
      match get item "content" with
      | None => true
      | Some JNull => true
      | Some (JArr _) => true
      | Some _ => false
      end
  end.

(** [output] is absent, [null] or an array of such elements. *)
Definition shaped_output (json : value) : bool :=
  match get json "output" with
  | None => true
  | Some JNull => true
  | Some (JArr outs) => forallb shaped_item outs
  | Some _ => false
  end.

(** [output_text] is absent, [null], a string, or an array that is empty or
    starts with a string (in particular an array of strings). *)
Definition typed_output_text (json : value) : bool :=
  match get json "output_text" with
  | None => true
  | Some JNull => true
  | Some (JStr _) => true
  | Some (JArr []) => true
  | Some (JArr (JStr _ :: _)) => true
  | Some _ => false
  end.

(** The [json] field of the first tagged content item is absent, falsy, or
    an object (or array). *)
Definition embedded_object_or_nothing (json : value) : bool :=
  match Script.outputItems json with
  | OK outs =>
      let j := opt_get (find Script.isStructuredItem (Script.contentItems outs)) "json" in
      negb (ToBoolean j) || jstype_eqb (typeof j) TObject
  | Throw _ => true
  end.

Definition conforming (json : value) : bool :=
  shaped_output json && typed_output_text json && embedded_object_or_nothing json.

(** The fields of a candidate have the types of the requested schema where
    they are present: [ppm] a finite number, [source] and [timestamp]
    strings. *)
Definition typed_fields (c : value) : bool :=
  match get c "ppm" with
  | None => true
  | Some (JNum n) => isFinite n
  | Some _ => false
  end
  && match get c "source" with
     | None => true
     | Some (JStr _) => true
     | Some _ => false
     end
  && match get c "timestamp" with
     | None => true
     | Some (JStr _) => true
     | Some _ => false
     end.

(** The two routines arrive at the same candidate, or both fail. *)
Definition same_candidate (a : result (tier * value)) (s : result (tier * jsval)) : Prop :=
  match a, s with
  | OK (_, c), OK (_, c') => c' = Some c
  | Throw _, Throw _ => True
  | _, _ => False
  end.

(** ** Induction on JSON values *)

Section ValueInduction.
Variable P : value -> Prop.
Hypothesis HNull : P JNull.
Hypothesis HBool : forall b, P (JBool b).
Hypothesis HNum : forall n, P (JNum n).
Hypothesis HStr : forall s, P (JStr s).
Hypothesis HArr : forall items, Forall P items -> P (JArr items).
Hypothesis HObj : forall props, Forall (fun kv => P (snd kv)) props -> P (JObj props).

Fixpoint value_nested_ind (v : value) : P v :=
  match v with
  | JNull => HNull
  | JBool b => HBool b
  | JNum n => HNum n
  | JStr s => HStr s
  | JArr items =>
      HArr items
        ((fix all (l : list value) : Forall P l :=
            match l with
            | [] => Forall_nil P
            | x :: rest => Forall_cons x (value_nested_ind x) (all rest)
            end) items)
  | JObj props =>
      HObj props
        ((fix all (l : list (string * value)) : Forall (fun kv => P (snd kv)) l :=
            match l with
            | [] => Forall_nil _
            | kv :: rest =>
                Forall_cons kv (value_nested_ind (snd kv)) (all rest)
            end) props)
  end.
End ValueInduction.

(** ** A sample engine and sample inputs *)

(** A finite excerpt of the built-in functions, enough to run the programs
    on the inputs below: every listed entry is what a JavaScript engine
    computes for that argument.  The general theorems quantify over every
    [Platform] and do not depend on this excerpt. *)
Module Sample.

(** The binary64 value nearest to 421.3, which is what the literal
    [421.3] denotes in JavaScript. *)
Definition ppm_421_3 : float := 0x1.a54cccccccccdp+8%float.

Definition reading_object : value :=
  JObj [("ppm", JNum ppm_421_3);
        ("source", JStr "https://example.org/co2");
        ("timestamp", JStr "2024-05-01T00:00:00Z")].

(** The JSON text of [reading_object]. *)
Definition reading_text : string :=
  "{" ++ dquote ++ "ppm" ++ dquote ++ ":421.3,"
  ++ dquote ++ "source" ++ dquote ++ ":" ++ dquote ++ "https://example.org/co2" ++ dquote ++ ","
  ++ dquote ++ "timestamp" ++ dquote ++ ":" ++ dquote ++ "2024-05-01T00:00:00Z" ++ dquote ++ "}".

Definition reading : Script.Reading :=
  {| Script.ppm := ppm_421_3;
     Script.source := "https://example.org/co2";
     Script.timestamp := "2024-05-01T00:00:00Z" |}.

(** A response whose only content item is a structured one. *)
Definition structured_response : value :=
  JObj [("output",
         JArr [JObj [("content",
                      JArr [JObj [("type", JStr "json_schema");
                                  ("json", reading_object)]])]])].

(** The body text of [structured_response]. *)
Definition structured_body : string :=
  "{" ++ dquote ++ "output" ++ dquote ++ ":[{" ++ dquote ++ "content" ++ dquote ++ ":[{"
  ++ dquote ++ "type" ++ dquote ++ ":" ++ dquote ++ "json_schema" ++ dquote ++ ","
  ++ dquote ++ "json" ++ dquote ++ ":" ++ reading_text ++ "}]}]}".

(** A reading with a negative concentration, and a response that embeds
    it in its structured content item, with its body text. *)
Definition negative_object : value :=
  JObj [("ppm", JNum (-1)%float);
        ("source", JStr "https://example.org/co2");
        ("timestamp", JStr "2024-05-01T00:00:00Z")].

Definition negative_response : value :=
  JObj [("output",
         JArr [JObj [("content",
                      JArr [JObj [("type", JStr "json_schema");
                                  ("json", negative_object)]])]])].

Definition negative_body : string :=
  "{" ++ dquote ++ "output" ++ dquote ++ ":[{" ++ dquote ++ "content" ++ dquote ++ ":[{"
  ++ dquote ++ "type" ++ dquote ++ ":" ++ dquote ++ "json_schema" ++ dquote ++ ","
  ++ dquote ++ "json" ++ dquote ++ ":{" ++ dquote ++ "ppm" ++ dquote ++ ":-1,"
  ++ dquote ++ "source" ++ dquote ++ ":" ++ dquote ++ "https://example.org/co2" ++ dquote ++ ","
  ++ dquote ++ "timestamp" ++ dquote ++ ":" ++ dquote ++ "2024-05-01T00:00:00Z" ++ dquote
  ++ "}}]}]}".

Definition parse (s : string) : option value :=
  if s =? reading_text then Some reading_object
  else if s =? structured_body then Some structured_response
  else if s =? negative_body then Some negative_response
  else if s =? "7" then Some (JNum 7%float)
  else if s =? "null" then Some JNull
  else None.

Definition to_number (s : string) : float :=
  if s =? "421.3" then ppm_421_3
  else if s =? "421" then 421%float
  else nan.

Definition to_string (n : float) : string :=
  if (n =? ppm_421_3)%float then "421.3"
  else if (n =? 421)%float then "421"
  else if (n =? 7)%float then "7"
  else if (n =? 1)%float then "1"
  else if (n =? 0)%float then "0"
  else "NaN".

Definition engine : Platform :=
  {| JSON_parse := parse; StringToNumber := to_number; NumberToString := to_string |}.

(** A run with the key in [OPENAI_API_KEY] and a compliant answer. *)
Definition world : World :=
  {| EXPO_PUBLIC_OPENAI_API_KEY := None;
     OPENAI_API_KEY := Some "sk-test";
     extra_openaiApiKey := None;
     endpoint := Some {| ok := true; status := 200; statusText := "OK";
                         body := structured_body |};
     now_toISOString := "2024-05-02T08:30:00.000Z";
     writeFile_rejects := false |}.

(** The same run when the answer carries the negative concentration. *)
Definition world_negative : World :=
  {| EXPO_PUBLIC_OPENAI_API_KEY := None;
     OPENAI_API_KEY := Some "sk-test";
     extra_openaiApiKey := None;
     endpoint := Some {| ok := true; status := 200; statusText := "OK";
                         body := negative_body |};
     now_toISOString := "2024-05-02T08:30:00.000Z";
     writeFile_rejects := false |}.

End Sample.

(** Responses with two tagged content items. *)
Module Responses.
Import Sample.

Definition tagged_without_json : value := JObj [("type", JStr "json")].

Definition tagged_with_reading : value :=
  JObj [("type", JStr "json_schema"); ("json", reading_object)].

(** Two tagged content items: the first embeds nothing, the second embeds
    a valid reading. *)
Definition second_item_structured : value :=
  JObj [("output",
         JArr [JObj [("content", JArr [tagged_without_json; tagged_with_reading])]])].

End Responses.

(** Responses without content items whose [output_text] is a list. *)
Module TextLists.
Import Sample.

Definition strings_only : value :=
  JObj [("output_text", JArr [JStr reading_text])].

Definition number_then_string : value :=
  JObj [("output_text", JArr [JNum 7%float; JStr reading_text])].

End TextLists.

(** Candidate objects. *)
Module Candidates.
Import Sample.

(** [ppm] is the numeric string ["421"]. *)
Definition ppm_numeric_string : value :=
  JObj [("ppm", JStr "421");
        ("source", JStr "https://example.org/co2");
        ("timestamp", JStr "2024-05-01T00:00:00Z")].

(** [ppm] is [Infinity], which the text [1e999] decodes to. *)
Definition ppm_infinite : value :=
  JObj [("ppm", JNum infinity);
        ("source", JStr "https://example.org/co2");
        ("timestamp", JStr "2024-05-01T00:00:00Z")].

(** [ppm] is [null]. *)
Definition ppm_null : value :=
  JObj [("ppm", JNull);
        ("source", JStr "https://example.org/co2");
        ("timestamp", JStr "2024-05-01T00:00:00Z")].

(** No [source]. *)
Definition source_missing : value :=
  JObj [("ppm", JNum ppm_421_3);
        ("timestamp", JStr "2024-05-01T00:00:00Z")].

End Candidates.

(** Responses whose structured content item embeds no object and whose
    second content item carries the reading as text. *)
Module Fallbacks.
Import Sample.

Definition text_item : value :=
  JObj [("type", JStr "output_text"); ("text", JStr reading_text)].

Definition tagged_with_string : value :=
  JObj [("type", JStr "json_schema"); ("json", JStr "n/a")].

Definition json_absent : value :=
  JObj [("output",
         JArr [JObj [("content", JArr [Responses.tagged_without_json; text_item])]])].

Definition json_is_a_string : value :=
  JObj [("output",
         JArr [JObj [("content", JArr [tagged_with_string; text_item])]])].

End Fallbacks.

(** A response whose structured item embeds a reading with a numeric string
    as [ppm]. *)
Definition numeric_string_response : value :=
  JObj [("output",
         JArr [JObj [("content",
                      JArr [JObj [("type", JStr "json_schema");
                                  ("json", Candidates.ppm_numeric_string)]])]])].

(** A response whose structured item embeds a reading with [null] as
    [ppm]. *)
Definition null_ppm_response : value :=
  JObj [("output",
         JArr [JObj [("content",
                      JArr [JObj [("type", JStr "json_schema");
                                  ("json", Candidates.ppm_null)]])]])].

(** Configurations of the credential. *)
Module Worlds.

(** [EXPO_PUBLIC_OPENAI_API_KEY] is set to the empty string and
    [OPENAI_API_KEY] holds a key. *)
Definition expo_empty_openai_set : World :=
  {| EXPO_PUBLIC_OPENAI_API_KEY := Some "";
     OPENAI_API_KEY := Some "sk-test";
     extra_openaiApiKey := None;
     endpoint := endpoint Sample.world;
     now_toISOString := "2024-05-02T08:30:00.000Z";
     writeFile_rejects := false |}.

(** Only [EXPO_PUBLIC_OPENAI_API_KEY] holds a key. *)
Definition expo_only : World :=
  {| EXPO_PUBLIC_OPENAI_API_KEY := Some "sk-expo";
     OPENAI_API_KEY := None;
     extra_openaiApiKey := None;
     endpoint := endpoint Sample.world;
     now_toISOString := "2024-05-02T08:30:00.000Z";
     writeFile_rejects := false |}.

(** Only the application configuration holds a key. *)
Definition extra_only : World :=
  {| EXPO_PUBLIC_OPENAI_API_KEY := None;
     OPENAI_API_KEY := None;
     extra_openaiApiKey := Some "sk-extra";
     endpoint := endpoint Sample.world;
     now_toISOString := "2024-05-02T08:30:00.000Z";
     writeFile_rejects := false |}.

(** No credential anywhere. *)
Definition no_credential : World :=
  {| EXPO_PUBLIC_OPENAI_API_KEY := None;
     OPENAI_API_KEY := None;
     extra_openaiApiKey := None;
     endpoint := endpoint Sample.world;
     now_toISOString := "2024-05-02T08:30:00.000Z";
     writeFile_rejects := false |}.

End Worlds.

(** Answers of the endpoint used in the examples of failures. *)
Module Answers.

(** A response whose only text is not JSON. *)
Definition prose_text : string := "About 421 ppm.".

Definition prose_response : value :=
  JObj [("output",
         JArr [JObj [("content",
                      JArr [JObj [("type", JStr "output_text");
                                  ("text", JStr prose_text)]])]])].

(** The endpoint refuses the credential. *)
Definition unauthorized : World :=
  {| EXPO_PUBLIC_OPENAI_API_KEY := None;
     OPENAI_API_KEY := Some "sk-test";
     extra_openaiApiKey := None;
     endpoint := Some {| ok := false; status := 401; statusText := "Unauthorized";
                         body := "invalid key" |};
     now_toISOString := "2024-05-02T08:30:00.000Z";
     writeFile_rejects := false |}.

End Answers.

(** ** The display surface of the app: [src/App.tsx], lines 166-249 *)

(** The component's four [useState] cells, the two callbacks that update
    them and the choice of what is rendered.  A callback is modelled by the
    state it leaves when it has run to its end with no other load in flight;
    the updates made before the request is awaited are kept apart
    ([_begin]), since the state they leave is rendered while the request is
    outstanding. *)
Module Ui.

Record State : Type := {
  reading : jsval;
  loading : bool;
  error : option string;
  refreshing : bool
}.

(** Lines 167-170: [useState(null)], [useState(true)], [useState(null)],
    [useState(false)]. *)
Definition initial : State :=
  {| reading := None; loading := true; error := None; refreshing := false |}.

Definition setReading (v : jsval) (s : State) : State :=
  {| reading := v; loading := loading s; error := error s; refreshing := refreshing s |}.

Definition setLoading (b : bool) (s : State) : State :=
  {| reading := reading s; loading := b; error := error s; refreshing := refreshing s |}.

Definition setError (e : option string) (s : State) : State :=
  {| reading := reading s; loading := loading s; error := e; refreshing := refreshing s |}.

Definition setRefreshing (b : bool) (s : State) : State :=
  {| reading := reading s; loading := loading s; error := error s; refreshing := b |}.

(** Line 178: [err instanceof Error ? err.message : '...'].  Everything the
    model throws is an [Error]; the message of an error raised by the
    platform is the platform's, given by [platform_message]. *)
Definition err_message (platform_message : exn -> string) (e : exn) : string :=
  match e with
  | Error message => message
  | _ => platform_message e
  end.

(** Line 173, the part of [loadReading] that runs before the request. *)
Definition loadReading_begin (s : State) : State := setError None s.

(** Lines 174-182, once [fetchCurrentCo2] has settled with [r]. *)
Definition loadReading_settle (platform_message : exn -> string)
           (r : result value) (s : State) : State :=
  setLoading false
    (match r with
     | OK result => setReading (Some result) s
     | Throw err => setError (Some (err_message platform_message err)) s
     end).

(** Lines 172-183. *)
Definition loadReading `{Platform} (platform_message : exn -> string)
           (w : World) (s : State) : list event * State :=
  let (t, r) := fetchCurrentCo2 w in
  (t, loadReading_settle platform_message r (loadReading_begin s)).

(** Lines 190-191, the part of [onRefresh] that runs before the request. *)
Definition onRefresh_begin (s : State) : State :=
  setLoading true (setRefreshing true s).

(** Lines 189-197; [loadReading] catches every error, so the [finally]
    block always follows a settled load. *)
Definition onRefresh `{Platform} (platform_message : exn -> string)
           (w : World) (s : State) : list event * State :=
  let (t, s') := loadReading platform_message w (onRefresh_begin s) in
  (t, setRefreshing false s').

(** What [content] renders, lines 199-249: the activity indicator, the
    error with its message, the text "No data available", or the reading
    (whose fields the source formats for display). *)
Inductive View : Type :=
| Spinner
| ErrorView (message : string)
| NoData
| Metric (reading : value).

(** Lines 218-248: [if (!reading)] and the view of the reading. *)
Definition reading_view (reading : jsval) : View :=
  match reading with
  | Some r => if ToBoolean (Some r) then Metric r else NoData
  | None => NoData
  end.

(** Lines 199-249; [if (error)] holds for a non-empty message. *)
Definition content (s : State) : View :=
  if loading s && negb (refreshing s) && negb (ToBoolean (reading s)) then Spinner
  else
    match error s with
    | Some message =>
        if negb (message =? "") then ErrorView message
        else reading_view (reading s)
    | None => reading_view (reading s)
    end.


End Ui.

(** ** The earlier version of the app's routine: [src/unnamed/part_001] *)

(** Lines 80-101 of that file's [fetchCurrentCo2]; its messages and its
    validation (lines 97-99) are, word for word, those of [src/App.tsx]. *)
Module Legacy.

(** [v?.[0]]: the first element of an array, the property ["0"] of an
    object, the first character of a non-empty string (a string; the
    source only reads [content] from it, which a string does not have). *)
Definition opt_index0 (v : jsval) : jsval :=
  match v with
  | Some (JArr l) => nth_error l 0
  | Some (JObj props) => lookup "0" props
  | Some (JStr (String c _)) => Some (JStr (String c ""))
  | _ => None
  end.

(** [json.output?.[0]?.content] *)
Definition first_content (json : value) : result jsval :=
  output <- get_prop json "output" ;;
  OK (opt_get (opt_index0 output) "content").

(** [content.find((item) => item.type === 'output_text')] on an array: the
    callback reads [item.type] and throws on a [null] element. *)
Fixpoint find_output_text (l : list value) : result jsval :=
  match l with
  | [] => OK None
  | item :: rest =>
      t <- get_prop item "type" ;;
      if strict_eq_str t "output_text" then OK (Some item)
      else find_output_text rest
  end.

(** [content?.find(...)]: nothing when [content] is nullish; a value that
    is not an array has no [find] method, and the call throws. *)
Definition opt_find_output_text (content : jsval) : result jsval :=
  match content with
  | None => OK None
  | Some JNull => OK None
  | Some (JArr l) => find_output_text l
  | Some _ => Throw TypeError
  end.

(** Lines 81-84:
    [json.output?.[0]?.content?.find(...)?.text
       ?? json.output?.[0]?.content?.[0]?.text
       ?? json.output_text] *)
Definition rawContent (json : value) : result jsval :=
  content <- first_content json ;;
  found <- opt_find_output_text content ;;
  OK (coalesce (coalesce (opt_get found "text")
                         (opt_get (opt_index0 content) "text"))
               (get json "output_text")).

Section Normalizer.
Context `{Platform}.

(** Lines 80-101. *)
Definition normalize (json : value) : result value :=
  rawContent <- rawContent json ;;
  match rawContent with
  | Some raw =>
      if negb (ToBoolean (Some raw)) then Throw (Error App.NO_CONTENT)
      else
        parsed <- try_catch_rethrow (JSON_parse_value raw) App.PARSE_FAILED ;;
        App.validate parsed
  | None => Throw (Error App.NO_CONTENT)
  end.

End Normalizer.

End Legacy.

(** ** Basic facts *)

Lemma neq_empty_eqb (s : string) : s <> "" -> (s =? "") = false.
Proof. intro Hs. apply String.eqb_neq. exact Hs. Qed.

Lemma eqb_empty_neq (s : string) : (s =? "") = false -> s <> "".
Proof. intro Hs. apply String.eqb_neq. exact Hs. Qed.

Lemma get_Some_object (v : value) (k : string) (x : value) :
  get v k = Some x -> exists props, v = JObj props.
Proof.
  destruct v; simpl; intro Hg; try discriminate.
  exists props. reflexivity.
Qed.

Lemma opt_get_Some (v : value) (k : string) (x : value) :
  get v k = Some x -> opt_get (Some v) k = Some x.
Proof.
  intro Hg. destruct (get_Some_object _ _ _ Hg) as [props ->]. exact Hg.
Qed.

Lemma get_prop_Some (v : value) (k : string) (x : value) :
  get v k = Some x -> get_prop v k = OK (Some x).
Proof.
  intro Hg. destruct (get_Some_object _ _ _ Hg) as [props ->].
  unfold get_prop. rewrite Hg. reflexivity.
Qed.

Lemma valid_object_truthy (obj : value) (r : Script.Reading) :
  valid_object obj r ->
  ToBoolean (Some obj) = true /\ typeof (Some obj) = TObject.
Proof.
  intros (Hp & _). destruct (get_Some_object _ _ _ Hp) as [props ->].
  split; reflexivity.
Qed.

Lemma App_validate_valid (obj : value) (r : Script.Reading) :
  valid_object obj r -> App.validate obj = OK obj.
Proof.
  intros (Hp & _ & Hs & Hs' & Ht & Ht').
  unfold App.validate. rewrite (get_prop_Some _ _ _ Hp). simpl.
  rewrite Hs, Ht. simpl.
  rewrite (neq_empty_eqb _ Hs'), (neq_empty_eqb _ Ht'). reflexivity.
Qed.

Lemma Script_validate_valid `{Platform} (obj : value) (r : Script.Reading) :
  valid_object obj r -> Script.validate (Some obj) = OK r.
Proof.
  intros (Hp & Hfin & Hs & Hs' & Ht & Ht').
  unfold Script.validate.
  rewrite (opt_get_Some _ _ _ Hp), (opt_get_Some _ _ _ Hs), (opt_get_Some _ _ _ Ht).
  simpl. rewrite Hfin, (neq_empty_eqb _ Hs'), (neq_empty_eqb _ Ht'). simpl.
  destruct r; reflexivity.
Qed.

(** ** Tier 1: the structured content item *)

(** C1, as amended.  When the first content item tagged as JSON or
    JSON-schema output embeds an object with a valid
    [{ppm, source, timestamp}], both routines take that object as the
    candidate in the structured branch, so the text is neither selected nor
    parsed, and return exactly its three values: the app returns the object
    itself, the batch script the record of its fields. *)
Theorem first_structured_item_is_returned `{Platform} :
  forall (json item obj : value) (r : Script.Reading),
    valid_object obj r ->
    get item "json" = Some obj ->
    (forall items,
        App.contentItems json = OK items ->
        find App.isJsonContent items = Some item ->
        App.candidate json = OK (Structured, obj)
        /\ App.normalize json = OK obj
        /\ same_reading obj r)
    /\ (forall outs,
           Script.outputItems json = OK outs ->
           find Script.isStructuredItem (Script.contentItems outs) = Some item ->
           Script.candidate json = OK (Structured, Some obj)
           /\ Script.normalize json = OK r).
Proof.
  intros json item obj r Hvalid Hjson.
  destruct (valid_object_truthy _ _ Hvalid) as [Htruthy Htype].
  assert (Hcand_app : forall items,
             App.contentItems json = OK items ->
             find App.isJsonContent items = Some item ->
             App.candidate json = OK (Structured, obj)).
  { intros items Hitems Hfind. unfold App.candidate.
    rewrite Hitems. simpl. rewrite Hfind, (opt_get_Some _ _ _ Hjson).
    rewrite Htruthy, Htype. reflexivity. }
  assert (Hcand_script : forall outs,
             Script.outputItems json = OK outs ->
             find Script.isStructuredItem (Script.contentItems outs) = Some item ->
             Script.candidate json = OK (Structured, Some obj)).
  { intros outs Houts Hfind. unfold Script.candidate.
    rewrite Houts. simpl. rewrite Hfind, (opt_get_Some _ _ _ Hjson).
    rewrite Htruthy. reflexivity. }
  split.
  - intros items Hitems Hfind. split; [ now apply Hcand_app with items | split ].
    + unfold App.normalize. rewrite (Hcand_app items Hitems Hfind). simpl.
      now apply App_validate_valid with r.
    + destruct Hvalid as (Hp & _ & Hs & _ & Ht & _). now repeat split.
  - intros outs Houts Hfind. split; [ now apply Hcand_script with outs | ].
    unfold Script.normalize. rewrite (Hcand_script outs Houts Hfind). simpl.
    now apply Script_validate_valid.
Qed.

Lemma first_structured_item_is_returned_witness :
  valid_object Sample.reading_object Sample.reading
  /\ App.normalize (H := Sample.engine) Sample.structured_response = OK Sample.reading_object
  /\ Script.normalize (H := Sample.engine) Sample.structured_response = OK Sample.reading.
Proof.
  assert (Hvalid : valid_object Sample.reading_object Sample.reading).
  { unfold valid_object. simpl. repeat split; try reflexivity; discriminate. }
  destruct (@first_structured_item_is_returned Sample.engine
              Sample.structured_response Responses.tagged_with_reading
              Sample.reading_object Sample.reading Hvalid eq_refl)
    as [Happ Hscript].
  split; [ exact Hvalid | split ].
  - apply (Happ [Responses.tagged_with_reading]); reflexivity.
  - apply (Hscript [JObj [("content", JArr [Responses.tagged_with_reading])]]); reflexivity.
Defined.

(** C1, as stated, fails: this response contains a content item tagged as
    JSON-schema output whose embedded object is a valid reading, but the
    item is not the first tagged one.  [find] stops at the first tagged item,
    which embeds nothing; both routines go on to the text tier, find no
    text, and fail. *)
Lemma structured_item_behind_another_is_ignored :
  App.contentItems Responses.second_item_structured
  = OK [Responses.tagged_without_json; Responses.tagged_with_reading]
  /\ App.isJsonContent Responses.tagged_with_reading = true
  /\ get Responses.tagged_with_reading "json" = Some Sample.reading_object
  /\ valid_object Sample.reading_object Sample.reading
  /\ App.normalize (H := Sample.engine) Responses.second_item_structured
     = Throw (Error App.NO_CONTENT)
  /\ Script.normalize (H := Sample.engine) Responses.second_item_structured
     = Throw (Error Script.NO_CONTENT).
Proof.
  repeat split; try reflexivity; simpl; discriminate.
Qed.

(** ** Tier 2: the text candidate taken from [output_text] *)

Lemma coalesce_undefined (b : jsval) : coalesce None b = b.
Proof. reflexivity. Qed.

Lemma App_candidate_no_structured `{Platform} (json : value) (items : list value) :
  App.contentItems json = OK items ->
  find App.isJsonContent items = None ->
  App.candidate json = App.text_tier json items.
Proof.
  intros Hitems Hfind. unfold App.candidate.
  rewrite Hitems. simpl. rewrite Hfind. reflexivity.
Qed.

Lemma Script_candidate_no_structured `{Platform} (json : value) (outs : list value) :
  Script.outputItems json = OK outs ->
  find Script.isStructuredItem (Script.contentItems outs) = None ->
  Script.candidate json = Script.text_tier json (Script.contentItems outs).
Proof.
  intros Houts Hfind. unfold Script.candidate.
  rewrite Houts. simpl. rewrite Hfind. reflexivity.
Qed.

(** C2, as amended.  For a response with no structured content item and no
    text content item whose [output_text] is a list, the app takes the first
    element of the list as the text candidate and the batch script takes the
    first element that is a string; when the list starts with a string,
    both take that first element and parse it as JSON. *)
Theorem output_text_list_candidate `{Platform} :
  forall (json : value) (l : list value),
    get json "output_text" = Some (JArr l) ->
    (forall items,
        App.contentItems json = OK items ->
        find App.isJsonContent items = None ->
        find App.isTextContent items = None ->
        App.rawContentCandidate json items = nth_error l 0
        /\ App.candidate json = App.text_tier json items
        /\ forall text rest,
            l = JStr text :: rest ->
            App.candidate json =
              if text =? "" then Throw (Error App.NO_CONTENT)
              else match JSON_parse text with
                   | Some parsed => OK (Text, parsed)
                   | None => Throw (Error App.PARSE_FAILED)
                   end)
    /\ (forall outs,
           Script.outputItems json = OK outs ->
           find Script.isStructuredItem (Script.contentItems outs) = None ->
           find Script.isTextItem (Script.contentItems outs) = None ->
           Script.fallbackText json (Script.contentItems outs) = find Script.isStringEntry l
           /\ Script.candidate json = Script.text_tier json (Script.contentItems outs)
           /\ forall text rest,
               l = JStr text :: rest ->
               Script.candidate json =
                 if text =? "" then Throw (Error Script.NO_CONTENT)
                 else match JSON_parse text with
                      | Some parsed => OK (Text, Some parsed)
                      | None => Throw (Error Script.PARSE_FAILED)
                      end).
Proof.
  intros json l Hlist. split.
  - intros items Hitems Hjson Htext.
    assert (Hraw : App.rawContentCandidate json items = nth_error l 0).
    { unfold App.rawContentCandidate, App.output_text_candidate.
      rewrite Htext, Hlist. reflexivity. }
    pose proof (App_candidate_no_structured json items Hitems Hjson) as Hcand.
    split; [ exact Hraw | split; [ exact Hcand | ] ].
    intros text rest ->. rewrite Hcand. unfold App.text_tier. rewrite Hraw. simpl.
    destruct (text =? ""); simpl; [ reflexivity | ].
    unfold JSON_parse_value. simpl.
    destruct (JSON_parse text); reflexivity.
  - intros outs Houts Hjson Htext.
    assert (Hfb : Script.fallbackText json (Script.contentItems outs)
                  = find Script.isStringEntry l).
    { unfold Script.fallbackText, Script.output_text_candidate.
      rewrite Htext, Hlist. reflexivity. }
    pose proof (Script_candidate_no_structured json outs Houts Hjson) as Hcand.
    split; [ exact Hfb | split; [ exact Hcand | ] ].
    intros text rest ->. rewrite Hcand. unfold Script.text_tier, Script.usable.
    rewrite Hfb. simpl.
    destruct (text =? ""); simpl; [ reflexivity | ].
    destruct (JSON_parse text); reflexivity.
Qed.

Lemma output_text_list_candidate_witness :
  App.candidate (H := Sample.engine) TextLists.strings_only
  = OK (Text, Sample.reading_object)
  /\ Script.candidate (H := Sample.engine) TextLists.strings_only
     = OK (Text, Some Sample.reading_object).
Proof.
  destruct (@output_text_list_candidate Sample.engine TextLists.strings_only
              [JStr Sample.reading_text] eq_refl) as [Happ Hscript].
  split.
  - destruct (Happ [] eq_refl eq_refl eq_refl) as (_ & _ & Hparse).
    exact (Hparse Sample.reading_text [] eq_refl).
  - destruct (Hscript [] eq_refl eq_refl eq_refl) as (_ & _ & Hparse).
    exact (Hparse Sample.reading_text [] eq_refl).
Defined.

(** C2, as stated, fails for the batch script: the first element of this
    list is the number 7, and the script's text candidate is the second
    element, the first one that is a string, which it parses into a reading.
    The app takes the first element, as the claim says. *)
Lemma script_skips_non_string_entries :
  get TextLists.number_then_string "output_text"
  = Some (JArr [JNum 7%float; JStr Sample.reading_text])
  /\ Script.outputItems TextLists.number_then_string = OK []
  /\ Script.fallbackText TextLists.number_then_string [] = Some (JStr Sample.reading_text)
  /\ Script.normalize (H := Sample.engine) TextLists.number_then_string = OK Sample.reading
  /\ App.rawContentCandidate TextLists.number_then_string [] = Some (JNum 7%float)
  /\ App.normalize (H := Sample.engine) TextLists.number_then_string
     = Throw (Error App.MISSING_FIELDS).
Proof.
  repeat split; reflexivity.
Qed.

(** ** Validation of the candidate *)

Lemma Script_validate_succeeds_iff `{Platform} (reading : jsval) :
  succeeded (Script.validate reading) = true
  <-> (exists n, Number (opt_get reading "ppm") = OK n /\ isFinite n = true)
      /\ (exists s, opt_get reading "source" = Some (JStr s) /\ s <> "")
      /\ (exists t, opt_get reading "timestamp" = Some (JStr t) /\ t <> "").
Proof.
  unfold Script.validate.
  destruct (Number (opt_get reading "ppm")) as [n | e]; simpl.
  2: { split; [ discriminate | intros ((n & Hn & _) & _); discriminate ]. }
  destruct (opt_get reading "source") as [[ | | | s | | ] | ]; simpl;
    try (split; [ discriminate | intros (_ & (s' & Hs & _) & _); discriminate ]).
  destruct (opt_get reading "timestamp") as [[ | | | t | | ] | ]; simpl;
    try (split; [ discriminate | intros (_ & _ & (t' & Ht & _)); discriminate ]).
  destruct (isFinite n) eqn:Hfin; simpl.
  2: { split; [ discriminate | intros ((n' & Hn & Hfin') & _) ].
       injection Hn as <-. congruence. }
  destruct (s =? "") eqn:Hs; simpl.
  { split; [ discriminate | intros (_ & (s' & Hs' & Hne) & _) ].
    injection Hs' as <-. apply String.eqb_eq in Hs. contradiction. }
  destruct (t =? "") eqn:Ht; simpl.
  { split; [ discriminate | intros (_ & _ & (t' & Ht' & Hne)) ].
    injection Ht' as <-. apply String.eqb_eq in Ht. contradiction. }
  split; [ intros _ | reflexivity ].
  split; [ exists n; auto | split ].
  - exists s. split; [ reflexivity | now apply eqb_empty_neq ].
  - exists t. split; [ reflexivity | now apply eqb_empty_neq ].
Qed.

Lemma Script_validate_not_finite `{Platform} (reading : jsval) (n : float) :
  Number (opt_get reading "ppm") = OK n ->
  isFinite n = false ->
  Script.validate reading = Throw (Error Script.MISSING_FIELDS).
Proof.
  intros Hn Hfin. unfold Script.validate. rewrite Hn. simpl. rewrite Hfin. simpl.
  destruct (opt_get reading "source") as [[ | | | s | | ] | ]; try reflexivity.
  destruct (opt_get reading "timestamp") as [[ | | | t | | ] | ]; reflexivity.
Qed.

Lemma Script_validate_coercion_throws `{Platform} (reading : jsval) (e : exn) :
  Number (opt_get reading "ppm") = Throw e ->
  Script.validate reading = Throw e.
Proof.
  intro Hn. unfold Script.validate. rewrite Hn. reflexivity.
Qed.

Lemma App_validate_succeeds_iff (parsed : value) :
  succeeded (App.validate parsed) = true
  <-> typeof (get parsed "ppm") = TNumber
      /\ ToBoolean (get parsed "source") = true
      /\ ToBoolean (get parsed "timestamp") = true.
Proof.
  unfold App.validate.
  destruct parsed as [ | b | n | s | items | props ]; simpl;
    try (split; [ discriminate | intros (Hty & _); discriminate ]).
  destruct (lookup "ppm" props) as [[ | b | n | s | items | props' ] | ]; simpl;
    try (split; [ discriminate | intros (Hty & _); discriminate ]).
  destruct (ToBoolean (lookup "source" props)); simpl;
    [ | split; [ discriminate | intros (_ & Hs & _); discriminate ] ].
  destruct (ToBoolean (lookup "timestamp" props)); simpl;
    [ | split; [ discriminate | intros (_ & _ & Ht); discriminate ] ].
  split; auto.
Qed.

Lemma App_validate_not_number (parsed : value) :
  parsed <> JNull ->
  typeof (get parsed "ppm") <> TNumber ->
  App.validate parsed = Throw (Error App.MISSING_FIELDS).
Proof.
  intros Hnull Hty. unfold App.validate.
  destruct parsed; try contradiction; simpl in *;
    try reflexivity.
  destruct (lookup "ppm" props) as [[ | b | n | s | items | props' ] | ];
    simpl in *; try reflexivity.
  contradiction.
Qed.

(** C3, as amended.  In the batch script validation succeeds exactly when
    [Number(ppm)] yields a finite number and [source] and [timestamp] are
    non-empty strings: a [ppm] that coerces to NaN or to an infinity is
    rejected with the ValidationError (an error thrown by the coercion
    itself is passed on), and a numeric string that coerces to a finite
    number is accepted with that number.  In the app validation succeeds
    exactly when [ppm] has the type number and [source] and [timestamp] are
    truthy: it does not coerce, and a [ppm] that is a string is rejected with
    the ValidationError. *)
Theorem validation_rules `{Platform} :
  (forall reading : jsval,
      succeeded (Script.validate reading) = true
      <-> (exists n, Number (opt_get reading "ppm") = OK n /\ isFinite n = true)
          /\ (exists s, opt_get reading "source" = Some (JStr s) /\ s <> "")
          /\ (exists t, opt_get reading "timestamp" = Some (JStr t) /\ t <> ""))
  /\ (forall (reading : jsval) (n : float),
         Number (opt_get reading "ppm") = OK n ->
         isFinite n = false ->
         Script.validate reading = Throw (Error Script.MISSING_FIELDS)
         /\ kind_of (Error Script.MISSING_FIELDS) = Some ValidationError)
  /\ (forall (reading : jsval) (e : exn),
         Number (opt_get reading "ppm") = Throw e ->
         Script.validate reading = Throw e)
  /\ (forall (reading : jsval) (text s t : string),
         opt_get reading "ppm" = Some (JStr text) ->
         isFinite (StringToNumber text) = true ->
         opt_get reading "source" = Some (JStr s) -> s <> "" ->
         opt_get reading "timestamp" = Some (JStr t) -> t <> "" ->
         Script.validate reading
         = OK {| Script.ppm := StringToNumber text;
                 Script.source := s; Script.timestamp := t |})
  /\ (forall parsed : value,
         succeeded (App.validate parsed) = true
         <-> typeof (get parsed "ppm") = TNumber
             /\ ToBoolean (get parsed "source") = true
             /\ ToBoolean (get parsed "timestamp") = true)
  /\ (forall (parsed : value) (text : string),
         get parsed "ppm" = Some (JStr text) ->
         App.validate parsed = Throw (Error App.MISSING_FIELDS)
         /\ kind_of (Error App.MISSING_FIELDS) = Some ValidationError).
Proof.
  split; [ exact Script_validate_succeeds_iff | ].
  split.
  { intros reading n Hn Hfin. split; [ | reflexivity ].
    now apply Script_validate_not_finite with n. }
  split; [ exact Script_validate_coercion_throws | ].
  split.
  { intros reading text s t Hp Hfin Hs Hs' Ht Ht'.
    unfold Script.validate. rewrite Hp, Hs, Ht. simpl.
    rewrite Hfin, (neq_empty_eqb _ Hs'), (neq_empty_eqb _ Ht'). reflexivity. }
  split; [ exact App_validate_succeeds_iff | ].
  intros parsed text Hp. split; [ | reflexivity ].
  apply App_validate_not_number.
  - intros ->. discriminate.
  - rewrite Hp. discriminate.
Qed.

Lemma validation_rules_witness :
  Script.validate (H := Sample.engine) (Some Candidates.ppm_numeric_string)
  = OK {| Script.ppm := 421%float;
          Script.source := "https://example.org/co2";
          Script.timestamp := "2024-05-01T00:00:00Z" |}
  /\ App.validate Candidates.ppm_numeric_string
     = Throw (Error App.MISSING_FIELDS).
Proof.
  destruct (@validation_rules Sample.engine) as (_ & _ & _ & Hstring & _ & Happ).
  split.
  - apply (Hstring (Some Candidates.ppm_numeric_string) "421"
             "https://example.org/co2" "2024-05-01T00:00:00Z");
      try reflexivity; discriminate.
  - apply (Happ Candidates.ppm_numeric_string "421"). reflexivity.
Defined.

(** C3, as stated, fails for the app in both directions.  The numeric
    string ["421"] coerces to the finite number 421, and the batch script
    accepts the candidate, but the app rejects it; and the app accepts a
    candidate whose [ppm] is the number [Infinity], which is not finite. *)
Lemma app_validation_does_not_coerce :
  Number (H := Sample.engine) (get Candidates.ppm_numeric_string "ppm") = OK 421%float
  /\ isFinite 421%float = true
  /\ succeeded (Script.validate (H := Sample.engine) (Some Candidates.ppm_numeric_string)) = true
  /\ App.validate Candidates.ppm_numeric_string
     = Throw (Error App.MISSING_FIELDS)
  /\ isFinite infinity = false
  /\ App.validate Candidates.ppm_infinite = OK Candidates.ppm_infinite.
Proof.
  repeat split; reflexivity.
Qed.

(** C4, as amended.  A candidate object without a [source] field always
    fails validation with the ValidationError, whose message is one fixed
    text per program and names no field; in the batch script this holds
    whenever the coercion of [ppm] returns, and an error thrown by the
    coercion is passed on instead. *)
Theorem missing_source_is_rejected `{Platform} :
  forall props : list (string * value),
    lookup "source" props = None ->
    App.validate (JObj props) = Throw (Error App.MISSING_FIELDS)
    /\ (forall n, Number (lookup "ppm" props) = OK n ->
                  Script.validate (Some (JObj props)) = Throw (Error Script.MISSING_FIELDS))
    /\ (forall e, Number (lookup "ppm" props) = Throw e ->
                  Script.validate (Some (JObj props)) = Throw e)
    /\ (forall json t,
           App.candidate json = OK (t, JObj props) ->
           App.normalize json = Throw (Error App.MISSING_FIELDS))
    /\ (forall json t n,
           Script.candidate json = OK (t, Some (JObj props)) ->
           Number (lookup "ppm" props) = OK n ->
           Script.normalize json = Throw (Error Script.MISSING_FIELDS))
    /\ kind_of (Error App.MISSING_FIELDS) = Some ValidationError
    /\ kind_of (Error Script.MISSING_FIELDS) = Some ValidationError
    /\ names_field App.MISSING_FIELDS "source" = false
    /\ names_field Script.MISSING_FIELDS "source" = false.
Proof.
  intros props Hsource.
  assert (Happ : App.validate (JObj props) = Throw (Error App.MISSING_FIELDS)).
  { unfold App.validate. simpl. rewrite Hsource. simpl.
    rewrite orb_true_r. reflexivity. }
  assert (Hscript : forall n, Number (lookup "ppm" props) = OK n ->
             Script.validate (Some (JObj props)) = Throw (Error Script.MISSING_FIELDS)).
  { intros n Hn. unfold Script.validate. simpl. rewrite Hn, Hsource. reflexivity. }
  split; [ exact Happ | ].
  split; [ exact Hscript | ].
  split.
  { intros e He. apply Script_validate_coercion_throws. exact He. }
  split.
  { intros json t Hcand. unfold App.normalize. rewrite Hcand. exact Happ. }
  split.
  { intros json t n Hcand Hn. unfold Script.normalize. rewrite Hcand.
    exact (Hscript n Hn). }
  repeat split; reflexivity.
Qed.

Lemma missing_source_is_rejected_witness :
  App.validate Candidates.source_missing = Throw (Error App.MISSING_FIELDS)
  /\ Script.validate (H := Sample.engine) (Some Candidates.source_missing)
     = Throw (Error Script.MISSING_FIELDS).
Proof.
  destruct (@missing_source_is_rejected Sample.engine
              [("ppm", JNum Sample.ppm_421_3);
               ("timestamp", JStr "2024-05-01T00:00:00Z")] eq_refl)
    as (Happ & Hscript & _).
  split.
  - exact Happ.
  - exact (Hscript Sample.ppm_421_3 eq_refl).
Defined.

(** C4, as stated, fails: for this candidate object, which lacks [source],
    both routines throw their ValidationError, and its message, the same
    for every missing or invalid field, does not contain the word
    [source]. *)
Lemma validation_message_names_no_field :
  get Candidates.source_missing "source" = None
  /\ App.validate Candidates.source_missing
     = Throw (Error "OpenAI response JSON was missing required fields.")
  /\ names_field "OpenAI response JSON was missing required fields." "source" = false
  /\ Script.validate (H := Sample.engine) (Some Candidates.source_missing)
     = Throw (Error "OpenAI response JSON is missing required fields.")
  /\ names_field "OpenAI response JSON is missing required fields." "source" = false.
Proof.
  repeat split; reflexivity.
Qed.

(** ** What a returned reading guarantees *)

Lemma Script_validate_OK `{Platform} (reading : jsval) (r : Script.Reading) :
  Script.validate reading = OK r ->
  isFinite (Script.ppm r) = true
  /\ Script.source r <> ""
  /\ Script.timestamp r <> "".
Proof.
  unfold Script.validate.
  destruct (Number (opt_get reading "ppm")) as [n | e]; simpl; [ | discriminate ].
  destruct (opt_get reading "source") as [[ | | | s | | ] | ]; try discriminate.
  destruct (opt_get reading "timestamp") as [[ | | | t | | ] | ]; try discriminate.
  destruct (isFinite n) eqn:Hfin; simpl; [ | discriminate ].
  destruct (s =? "") eqn:Hs; simpl; [ discriminate | ].
  destruct (t =? "") eqn:Ht; simpl; [ discriminate | ].
  intro Hr. injection Hr as <-. simpl.
  split; [ exact Hfin | split; now apply eqb_empty_neq ].
Qed.

Lemma App_validate_OK (parsed v : value) :
  App.validate parsed = OK v ->
  v = parsed
  /\ typeof (get v "ppm") = TNumber
  /\ ToBoolean (get v "source") = true
  /\ ToBoolean (get v "timestamp") = true.
Proof.
  intro Hv.
  assert (Hs : succeeded (App.validate parsed) = true) by (rewrite Hv; reflexivity).
  apply App_validate_succeeds_iff in Hs.
  assert (v = parsed) as ->.
  { unfold App.validate in Hv.
    destruct (get_prop parsed "ppm"); simpl in Hv; [ | discriminate ].
    destruct (_ || _) in Hv; [ discriminate | ].
    now injection Hv. }
  split; [ reflexivity | exact Hs ].
Qed.

(** What a successful request of the batch script went through. *)
Lemma acquire_OK `{Platform} (w : World) (key : string) (r : Script.Reading) :
  outcome (Updater.acquire w key) = OK r ->
  exists response json,
    endpoint w = Some response
    /\ ok response = true
    /\ response_json response = OK json
    /\ Script.normalize json = OK r.
Proof.
  unfold Updater.acquire, fetch, io_bind, io_throw, io_lift, outcome.
  destruct (endpoint w) as [response | ]; simpl; [ | discriminate ].
  destruct (ok response) eqn:Hok; simpl; [ | discriminate ].
  destruct (response_json response) as [json | e] eqn:Hjson; simpl; [ | discriminate ].
  intro Hr. exists response, json. repeat split; auto.
Qed.

(** What a successful call of [fetchCurrentCo2] went through. *)
Lemma fetchCurrentCo2_OK `{Platform} (w : World) (v : value) :
  outcome (fetchCurrentCo2 w) = OK v ->
  exists apiKey response json,
    getOpenAIApiKey w = Some apiKey
    /\ endpoint w = Some response
    /\ ok response = true
    /\ response_json response = OK json
    /\ App.normalize json = OK v.
Proof.
  unfold fetchCurrentCo2, fetch, io_bind, io_throw, io_lift, outcome.
  destruct (getOpenAIApiKey w) as [apiKey | ]; simpl; [ | discriminate ].
  destruct (apiKey =? ""); simpl; [ discriminate | ].
  destruct (endpoint w) as [response | ] eqn:Hendpoint; simpl; [ | discriminate ].
  destruct (ok response) eqn:Hok; simpl; [ | discriminate ].
  destruct (response_json response) as [json | e] eqn:Hjson; simpl; [ | discriminate ].
  intro Hv. exists apiKey, response, json. repeat split; auto.
Qed.

(** C5, as amended.  Every reading the batch script obtains has a finite
    [ppm] and non-empty strings as [source] and [timestamp]; every reading
    [fetchCurrentCo2] returns has a [ppm] of type number and truthy [source]
    and [timestamp].  Neither routine checks the sign of [ppm]. *)
Theorem returned_reading_invariant `{Platform} :
  (forall (w : World) (key : string) (r : Script.Reading),
      outcome (Updater.acquire w key) = OK r ->
      isFinite (Script.ppm r) = true
      /\ Script.source r <> ""
      /\ Script.timestamp r <> "")
  /\ (forall (w : World) (v : value),
         outcome (fetchCurrentCo2 w) = OK v ->
         typeof (get v "ppm") = TNumber
         /\ ToBoolean (get v "source") = true
         /\ ToBoolean (get v "timestamp") = true).
Proof.
  split.
  - intros w key r Hr.
    destruct (acquire_OK w key r Hr) as (response & json & _ & _ & _ & Hnorm).
    unfold Script.normalize in Hnorm.
    destruct (Script.candidate json) as [c | e]; simpl in Hnorm; [ | discriminate ].
    now apply Script_validate_OK with (snd c).
  - intros w v Hv.
    destruct (fetchCurrentCo2_OK w v Hv) as (apiKey & response & json & _ & _ & _ & _ & Hnorm).
    unfold App.normalize in Hnorm.
    destruct (App.candidate json) as [c | e]; simpl in Hnorm; [ | discriminate ].
    now apply App_validate_OK with (snd c).
Qed.

Lemma returned_reading_invariant_witness :
  isFinite (Script.ppm Sample.reading) = true
  /\ Script.source Sample.reading <> ""
  /\ Script.timestamp Sample.reading <> ""
  /\ typeof (get Sample.reading_object "ppm") = TNumber.
Proof.
  destruct (@returned_reading_invariant Sample.engine) as [Hscript Happ].
  destruct (Hscript Sample.world "sk-test" Sample.reading eq_refl) as (Hfin & Hs & Ht).
  destruct (Happ Sample.world Sample.reading_object eq_refl) as (Hty & _).
  repeat split; assumption.
Defined.

(** C5, as stated, fails: the concentration need not be positive.  On this
    answer of the endpoint both programs succeed with a reading whose [ppm]
    is -1. *)
Lemma negative_ppm_is_accepted :
  outcome (Updater.acquire (H := Sample.engine) Sample.world_negative "sk-test")
  = OK {| Script.ppm := (-1)%float;
          Script.source := "https://example.org/co2";
          Script.timestamp := "2024-05-01T00:00:00Z" |}
  /\ outcome (fetchCurrentCo2 (H := Sample.engine) Sample.world_negative)
     = OK Sample.negative_object
  /\ get Sample.negative_object "ppm" = Some (JNum (-1)%float)
  /\ (0 <? -1)%float = false.
Proof.
  repeat split; reflexivity.
Qed.

(** ** The errors each routine can throw *)

Lemma join_Throw (element : value -> result string) (l : list value) :
  Forall (fun x => forall e, element x = Throw e -> e = TypeError) l ->
  forall e, join element l = Throw e -> e = TypeError.
Proof.
  induction 1 as [ | x rest Hx Hrest IH ]; intros e; simpl; [ discriminate | ].
  destruct (element x) as [s | e'] eqn:Hs; simpl.
  - destruct rest as [ | y rest' ]; [ discriminate | ].
    destruct (join element (y :: rest')) as [r | e''] eqn:Hr; simpl; [ discriminate | ].
    intro He. injection He as <-. now apply IH.
  - intro He. injection He as <-. now apply Hx.
Qed.

Lemma ToString_Throw `{Platform} (v : value) :
  forall e, ToString v = Throw e -> e = TypeError.
Proof.
  induction v as [ | b | n | s | items IH | props IH ] using value_nested_ind;
    intros e; simpl; try discriminate.
  - apply join_Throw. apply Forall_impl with (2 := IH).
    intros x Hx e'. destruct x; try discriminate; apply Hx.
  - destruct (lookup "toString" props); [ | discriminate ].
    intro He. now injection He.
Qed.

Lemma Number_Throw `{Platform} (v : jsval) (e : exn) :
  Number v = Throw e -> e = TypeError.
Proof.
  destruct v as [[ | b | n | s | items | props ] | ]; unfold Number; try discriminate.
  - destruct (ToString (JArr items)) as [s | e'] eqn:Hs; [ discriminate | ].
    intro He. injection He as <-. exact (ToString_Throw _ _ Hs).
  - destruct (ToString (JObj props)) as [s | e'] eqn:Hs; [ discriminate | ].
    intro He. injection He as <-. exact (ToString_Throw _ _ Hs).
Qed.

Lemma App_content_of_Throw (item : value) (e : exn) :
  App.content_of item = Throw e -> e = TypeError.
Proof.
  unfold App.content_of. destruct item; simpl; try discriminate.
  - intro He. now injection He.
  - destruct (coalesce (lookup "content" props) (Some (JArr []))) as [[ | | | | | ] | ];
      discriminate.
Qed.

Lemma App_flatMap_content_Throw (items : list value) (e : exn) :
  App.flatMap_content items = Throw e -> e = TypeError.
Proof.
  induction items as [ | item rest IH ]; simpl; [ discriminate | ].
  destruct (App.content_of item) as [l | e'] eqn:Hitem; simpl.
  - destruct (App.flatMap_content rest) as [r | e'']; simpl; [ discriminate | ].
    intro He. injection He as <-. now apply IH.
  - intro He. injection He as <-. exact (App_content_of_Throw _ _ Hitem).
Qed.

Lemma App_contentItems_Throw (json : value) (e : exn) :
  App.contentItems json = Throw e -> e = TypeError.
Proof.
  unfold App.contentItems.
  destruct (get_prop json "output") as [output | e'] eqn:Hout; simpl.
  - destruct (coalesce output (Some (JArr []))) as [[ | | | | items | ] | ];
      try (intro He; now injection He).
    apply App_flatMap_content_Throw.
  - intro He. injection He as <-. destruct json; simpl in Hout; try discriminate.
    now injection Hout.
Qed.

Lemma App_text_tier_Throw `{Platform} (json : value) (items : list value) (e : exn) :
  App.text_tier json items = Throw e ->
  e = Error App.NO_CONTENT \/ e = Error App.PARSE_FAILED.
Proof.
  unfold App.text_tier.
  destruct (App.rawContentCandidate json items) as [raw | ];
    [ | intro He; injection He as <-; now left ].
  destruct (negb (ToBoolean (Some raw))); [ intro He; injection He as <-; now left | ].
  destruct (JSON_parse_value raw); simpl; [ discriminate | ].
  intro He. injection He as <-. now right.
Qed.

Lemma App_validate_Throw (parsed : value) (e : exn) :
  App.validate parsed = Throw e ->
  e = TypeError \/ e = Error App.MISSING_FIELDS.
Proof.
  unfold App.validate. destruct parsed; simpl;
    try (intro He; injection He as <-; now right).
  - intro He. injection He as <-. now left.
  - destruct (_ || _); [ | discriminate ].
    intro He. injection He as <-. now right.
Qed.

Lemma App_normalize_Throw `{Platform} (json : value) (e : exn) :
  App.normalize json = Throw e -> App_normalize_error e.
Proof.
  unfold App.normalize, App_normalize_error.
  destruct (App.candidate json) as [c | e'] eqn:Hc; simpl.
  - intro Hv. destruct (App_validate_Throw _ _ Hv); auto.
  - intro He. injection He as <-. revert Hc. unfold App.candidate.
    destruct (App.contentItems json) as [items | e''] eqn:Hitems; simpl.
    + destruct (opt_get (find App.isJsonContent items) "json") as [parsed | ].
      * destruct (_ && _); [ discriminate | ].
        intro Ht. destruct (App_text_tier_Throw _ _ _ Ht); auto.
      * intro Ht. destruct (App_text_tier_Throw _ _ _ Ht); auto.
    + intro He. injection He as <-. left. exact (App_contentItems_Throw _ _ Hitems).
Qed.

Lemma Script_text_tier_Throw `{Platform} (json : value) (items : list value) (e : exn) :
  Script.text_tier json items = Throw e ->
  e = Error Script.NO_CONTENT \/ e = Error Script.PARSE_FAILED.
Proof.
  unfold Script.text_tier.
  destruct (negb (Script.usable (Script.fallbackText json items)));
    [ intro He; injection He as <-; now left | ].
  destruct (Script.fallbackText json items) as [[ | | | text | | ] | ];
    try (intro He; injection He as <-; now left).
  destruct (JSON_parse text); [ discriminate | ].
  intro He. injection He as <-. now right.
Qed.

Lemma Script_validate_Throw `{Platform} (reading : jsval) (e : exn) :
  Script.validate reading = Throw e ->
  e = TypeError \/ e = Error Script.MISSING_FIELDS.
Proof.
  unfold Script.validate.
  destruct (Number (opt_get reading "ppm")) as [n | e'] eqn:Hn; simpl.
  - destruct (opt_get reading "source") as [[ | | | s | | ] | ];
      try (intro He; injection He as <-; now right).
    destruct (opt_get reading "timestamp") as [[ | | | t | | ] | ];
      try (intro He; injection He as <-; now right).
    destruct (_ || _); [ | discriminate ].
    intro He. injection He as <-. now right.
  - intro He. injection He as <-. left. exact (Number_Throw _ _ Hn).
Qed.

Lemma Script_normalize_Throw `{Platform} (json : value) (e : exn) :
  Script.normalize json = Throw e -> Script_normalize_error e.
Proof.
  unfold Script.normalize, Script_normalize_error.
  destruct (Script.candidate json) as [c | e'] eqn:Hc; simpl.
  - intro Hv. destruct (Script_validate_Throw _ _ Hv); auto.
  - intro He. injection He as <-. revert Hc. unfold Script.candidate.
    destruct (Script.outputItems json) as [outs | e''] eqn:Houts; simpl.
    + destruct (negb _); [ | discriminate ].
      intro Ht. destruct (Script_text_tier_Throw _ _ _ Ht); auto.
    + intro He. injection He as <-. left.
      unfold Script.outputItems in Houts.
      destruct json; simpl in Houts; try discriminate. now injection Houts.
Qed.

(** ** The credential *)

Lemma request_failed_kind (response : HttpResponse) :
  kind_of (Error (request_failed response)) = Some RequestError.
Proof.
  unfold kind_of, request_failed. cbn.
  destruct (status_text (status response) ++ _); reflexivity.
Qed.

Lemma App_normalize_error_kind (e : exn) :
  App_normalize_error e -> kind_of e <> Some AuthError.
Proof.
  intros [-> | [-> | [-> | ->]]]; discriminate.
Qed.

Lemma Script_normalize_error_kind (e : exn) :
  Script_normalize_error e -> kind_of e <> Some AuthError.
Proof.
  intros [-> | [-> | [-> | ->]]]; discriminate.
Qed.

Lemma getOpenAIApiKey_nonempty (w : World) (k : string) :
  getOpenAIApiKey w = Some k -> k <> "".
Proof.
  unfold getOpenAIApiKey.
  destruct (nonempty (match EXPO_PUBLIC_OPENAI_API_KEY w with
                      | Some k0 => Some k0
                      | None => OPENAI_API_KEY w
                      end)) eqn:Henv.
  - intro Hk. rewrite Hk in Henv. simpl in Henv.
    apply eqb_empty_neq. now apply negb_true_iff.
  - destruct (nonempty (extra_openaiApiKey w)) eqn:Hextra; [ | discriminate ].
    intro Hk. rewrite Hk in Hextra. simpl in Hextra.
    apply eqb_empty_neq. now apply negb_true_iff.
Qed.

Lemma fetchCurrentCo2_with_key `{Platform} (w : World) (k : string) :
  getOpenAIApiKey w = Some k ->
  trace (fetchCurrentCo2 w) = [Fetch API_URL ("Bearer " ++ k)]
  /\ forall e, outcome (fetchCurrentCo2 w) = Throw e -> kind_of e <> Some AuthError.
Proof.
  intro Hk. pose proof (getOpenAIApiKey_nonempty w k Hk) as Hne.
  unfold fetchCurrentCo2. rewrite Hk.
  unfold nonempty. rewrite (neq_empty_eqb _ Hne). simpl negb. cbv iota.
  unfold fetch, io_bind, io_throw, io_lift, trace, outcome.
  destruct (endpoint w) as [response | ].
  - destruct (ok response).
    + simpl negb. cbv iota.
      destruct (response_json response) as [json | e'] eqn:Hjson.
      * split; [ reflexivity | ]. simpl. intros e He.
        apply App_normalize_error_kind. now apply App_normalize_Throw with json.
      * split; [ reflexivity | ]. simpl. intros e He. injection He as <-.
        unfold response_json in Hjson.
        destruct (JSON_parse (body response)); [ discriminate | ].
        injection Hjson as <-. discriminate.
    + split; [ reflexivity | ]. simpl. intros e He. injection He as <-.
      rewrite request_failed_kind. discriminate.
  - split; [ reflexivity | ]. simpl. intros e He. injection He as <-. discriminate.
Qed.

Lemma acquire_trace `{Platform} (w : World) (k : string) :
  trace (Updater.acquire w k) = [Fetch API_URL ("Bearer " ++ k)].
Proof.
  unfold Updater.acquire, fetch, io_bind, io_throw, io_lift, trace.
  destruct (endpoint w) as [response | ]; [ | reflexivity ].
  destruct (ok response); simpl; [ | reflexivity ].
  destruct (response_json response); reflexivity.
Qed.

Lemma acquire_Throw `{Platform} (w : World) (k : string) (e : exn) :
  outcome (Updater.acquire w k) = Throw e ->
  e = FetchRejected
  \/ (exists response, e = Error (request_failed response))
  \/ e = SyntaxError
  \/ Script_normalize_error e.
Proof.
  unfold Updater.acquire, fetch, io_bind, io_throw, io_lift, outcome.
  destruct (endpoint w) as [response | ];
    [ | simpl; intro He; injection He as <-; now left ].
  destruct (ok response); simpl.
  - destruct (response_json response) as [json | e'] eqn:Hjson; simpl.
    + intro He. right. right. right. now apply Script_normalize_Throw with json.
    + intro He. injection He as <-. right. right. left.
      unfold response_json in Hjson.
      destruct (JSON_parse (body response)); [ discriminate | ]. now injection Hjson.
  - intro He. injection He as <-. right. left. now exists response.
Qed.

Lemma acquire_error_kind `{Platform} (w : World) (k : string) (e : exn) :
  outcome (Updater.acquire w k) = Throw e -> kind_of e <> Some AuthError.
Proof.
  intro He. destruct (acquire_Throw w k e He) as [-> | [[response ->] | [-> | Hn]]];
    try discriminate.
  - rewrite request_failed_kind. discriminate.
  - now apply Script_normalize_error_kind.
Qed.

(** The three shapes of a run of the batch script that has a key. *)
Lemma main_with_key `{Platform} (w : World) (k : string) :
  OPENAI_API_KEY w = Some k -> k <> "" ->
  (exists e, outcome (Updater.acquire w k) = Throw e
             /\ Updater.main w = ([Fetch API_URL ("Bearer " ++ k)], Throw e))
  \/ (exists r, outcome (Updater.acquire w k) = OK r
                /\ writeFile_rejects w = true
                /\ Updater.main w =
                     ([Fetch API_URL ("Bearer " ++ k);
                       WriteFile Updater.fileUrl
                         (JSON_stringify_2 (Updater.payload r (now_toISOString w)) ++ newline)],
                      Throw FsRejected))
  \/ (exists r, outcome (Updater.acquire w k) = OK r
                /\ writeFile_rejects w = false
                /\ Updater.main w =
                     ([Fetch API_URL ("Bearer " ++ k);
                       WriteFile Updater.fileUrl
                         (JSON_stringify_2 (Updater.payload r (now_toISOString w)) ++ newline);
                       ConsoleLog ("Updated CO₂ data: " ++ NumberToString (Script.ppm r)
                                   ++ " ppm at " ++ Script.timestamp r)],
                      OK tt)).
Proof.
  intros Hk Hne. unfold Updater.main. rewrite Hk.
  unfold nonempty. rewrite (neq_empty_eqb _ Hne). simpl negb. cbv iota.
  pose proof (acquire_trace w k) as Htrace.
  destruct (Updater.acquire w k) as [t [r | e]] eqn:Hacq;
    unfold trace in Htrace; simpl in Htrace; subst t.
  - right. unfold io_bind, writeFile, console_log.
    destruct (writeFile_rejects w).
    + left. exists r. repeat split; reflexivity.
    + right. exists r. repeat split; reflexivity.
  - left. exists e. split; reflexivity.
Qed.

(** C7, as amended.  With no credential (each of the two variables and the
    configuration entry unset or empty) both programs fail with the
    AuthError before any request.  The app uses
    [EXPO_PUBLIC_OPENAI_API_KEY] when it is non-empty, [OPENAI_API_KEY] when
    the former is unset and the latter non-empty, and the configuration
    entry when neither variable holds a non-empty value; the batch script
    reads [OPENAI_API_KEY] only.  With the key so found a program issues its
    request with that key and raises no AuthError. *)
Theorem credential_resolution `{Platform} :
  (forall w : World,
      nonempty (EXPO_PUBLIC_OPENAI_API_KEY w) = false ->
      nonempty (OPENAI_API_KEY w) = false ->
      nonempty (extra_openaiApiKey w) = false ->
      fetchCurrentCo2 w = ([], Throw (Error App.MISSING_KEY))
      /\ kind_of (Error App.MISSING_KEY) = Some AuthError
      /\ Updater.main w = ([], Throw (Error Script.MISSING_KEY))
      /\ kind_of (Error Script.MISSING_KEY) = Some AuthError)
  /\ (forall (w : World) (k : string),
         k <> "" ->
         EXPO_PUBLIC_OPENAI_API_KEY w = Some k
         \/ (EXPO_PUBLIC_OPENAI_API_KEY w = None /\ OPENAI_API_KEY w = Some k)
         \/ (nonempty (EXPO_PUBLIC_OPENAI_API_KEY w) = false
             /\ nonempty (OPENAI_API_KEY w) = false
             /\ extra_openaiApiKey w = Some k) ->
         getOpenAIApiKey w = Some k
         /\ trace (fetchCurrentCo2 w) = [Fetch API_URL ("Bearer " ++ k)]
         /\ forall e, outcome (fetchCurrentCo2 w) = Throw e -> kind_of e <> Some AuthError)
  /\ (forall (w : World) (k : string),
         k <> "" ->
         OPENAI_API_KEY w = Some k ->
         (exists rest, trace (Updater.main w) = Fetch API_URL ("Bearer " ++ k) :: rest)
         /\ forall e, outcome (Updater.main w) = Throw e -> kind_of e <> Some AuthError).
Proof.
  split; [ | split ].
  - intros w Hexpo Hopenai Hextra.
    assert (Hkey : getOpenAIApiKey w = None).
    { unfold getOpenAIApiKey.
      destruct (EXPO_PUBLIC_OPENAI_API_KEY w) as [k | ].
      - rewrite Hexpo, Hextra. reflexivity.
      - rewrite Hopenai, Hextra. reflexivity. }
    repeat split.
    + unfold fetchCurrentCo2. rewrite Hkey. reflexivity.
    + unfold Updater.main. destruct (OPENAI_API_KEY w) as [k | ]; [ | reflexivity ].
      rewrite Hopenai. reflexivity.
  - intros w k Hne Hcases.
    assert (Hkey : getOpenAIApiKey w = Some k).
    { unfold getOpenAIApiKey.
      destruct Hcases as [Hexpo | [[Hexpo Hopenai] | (Hexpo & Hopenai & Hextra)]].
      - rewrite Hexpo. simpl. now rewrite (neq_empty_eqb _ Hne).
      - rewrite Hexpo, Hopenai. simpl. now rewrite (neq_empty_eqb _ Hne).
      - rewrite Hextra.
        destruct (EXPO_PUBLIC_OPENAI_API_KEY w) as [k' | ].
        + rewrite Hexpo. simpl. now rewrite (neq_empty_eqb _ Hne).
        + rewrite Hopenai. simpl. now rewrite (neq_empty_eqb _ Hne). }
    split; [ exact Hkey | ]. now apply fetchCurrentCo2_with_key.
  - intros w k Hne Hk.
    destruct (main_with_key w k Hk Hne)
      as [(e & Hacq & Hmain) | [(r & Hacq & Hrej & Hmain) | (r & Hacq & Hrej & Hmain)]];
      rewrite Hmain; unfold trace, outcome; simpl.
    + split; [ now exists [] | ]. intros e' He'. injection He' as <-.
      now apply acquire_error_kind with w k.
    + split; [ eexists; reflexivity | ]. intros e' He'. injection He' as <-. discriminate.
    + split; [ eexists; reflexivity | ]. discriminate.
Qed.

Lemma credential_resolution_witness :
  fetchCurrentCo2 (H := Sample.engine) Worlds.no_credential
  = ([], Throw (Error App.MISSING_KEY))
  /\ Updater.main (H := Sample.engine) Worlds.no_credential
     = ([], Throw (Error Script.MISSING_KEY))
  /\ getOpenAIApiKey Worlds.extra_only = Some "sk-extra"
  /\ trace (fetchCurrentCo2 (H := Sample.engine) Worlds.extra_only)
     = [Fetch API_URL "Bearer sk-extra"].
Proof.
  destruct (@credential_resolution Sample.engine) as (Hnone & Happ & _).
  destruct (Hnone Worlds.no_credential eq_refl eq_refl eq_refl) as (Ha & _ & Hs & _).
  assert (Hne : "sk-extra" <> "") by discriminate.
  destruct (Happ Worlds.extra_only "sk-extra" Hne) as (Hk & Ht & _).
  { right. right. repeat split; reflexivity. }
  repeat split; assumption.
Defined.

(** C7, as stated, fails in its second half.  In the first configuration
    [OPENAI_API_KEY] holds a key, but [EXPO_PUBLIC_OPENAI_API_KEY] is set to
    the empty string: [??] keeps the empty value, the app finds no key and
    raises the AuthError without a request.  In the second only
    [EXPO_PUBLIC_OPENAI_API_KEY] holds a key, and the batch script, which
    reads [OPENAI_API_KEY] alone, raises the AuthError. *)
Lemma credential_present_but_auth_error :
  nonempty (OPENAI_API_KEY Worlds.expo_empty_openai_set) = true
  /\ getOpenAIApiKey Worlds.expo_empty_openai_set = None
  /\ fetchCurrentCo2 (H := Sample.engine) Worlds.expo_empty_openai_set
     = ([], Throw (Error App.MISSING_KEY))
  /\ nonempty (EXPO_PUBLIC_OPENAI_API_KEY Worlds.expo_only) = true
  /\ Updater.main (H := Sample.engine) Worlds.expo_only
     = ([], Throw (Error Script.MISSING_KEY)).
Proof.
  repeat split; reflexivity.
Qed.

(** ** No content *)

Lemma find_all_false {A : Type} (f : A -> bool) (l : list A) :
  (forall x, In x l -> f x = false) -> find f l = None.
Proof.
  induction l as [ | x rest IH ]; intro Hall; simpl; [ reflexivity | ].
  rewrite (Hall x (or_introl eq_refl)). apply IH.
  intros y Hy. apply Hall. now right.
Qed.

(** C8, as amended.  A response whose content items can be read (the
    body is not [null]; for the app, [output] is absent, [null] or an array
    without [null] elements) and which has no structured content item, no
    text-bearing content item and no usable [output_text] fails with the
    NoContentError.  The value taken from [output_text] is usable for the
    app when it is truthy, and for the batch script when it is a non-empty
    string: the tests the two sources apply before parsing. *)
Theorem no_content_error `{Platform} :
  forall json : value,
    (forall items,
        App.contentItems json = OK items ->
        (forall item, In item items -> App.isJsonContent item = false) ->
        (forall item, In item items -> App.isTextContent item = false) ->
        ToBoolean (App.output_text_candidate json) = false ->
        App.normalize json = Throw (Error App.NO_CONTENT))
    /\ (forall outs,
           Script.outputItems json = OK outs ->
           (forall item, In item (Script.contentItems outs) ->
                         Script.isStructuredItem item = false) ->
           (forall item, In item (Script.contentItems outs) ->
                         Script.isTextItem item = false) ->
           Script.usable (Script.output_text_candidate json) = false ->
           Script.normalize json = Throw (Error Script.NO_CONTENT))
    /\ kind_of (Error App.NO_CONTENT) = Some NoContentError
    /\ kind_of (Error Script.NO_CONTENT) = Some NoContentError.
Proof.
  intro json. split; [ | split; [ | split; reflexivity ] ].
  - intros items Hitems Hjson Htext Hunusable.
    unfold App.normalize.
    rewrite (App_candidate_no_structured json items Hitems (find_all_false _ _ Hjson)).
    unfold App.text_tier, App.rawContentCandidate.
    rewrite (find_all_false _ _ Htext). simpl opt_get. rewrite coalesce_undefined.
    destruct (App.output_text_candidate json) as [raw | ]; [ | reflexivity ].
    rewrite Hunusable. reflexivity.
  - intros outs Houts Hjson Htext Hunusable.
    unfold Script.normalize.
    rewrite (Script_candidate_no_structured json outs Houts (find_all_false _ _ Hjson)).
    unfold Script.text_tier, Script.fallbackText.
    rewrite (find_all_false _ _ Htext). simpl opt_get. rewrite coalesce_undefined.
    rewrite Hunusable. reflexivity.
Qed.

Lemma no_content_error_witness :
  App.normalize (H := Sample.engine) (JObj [("output", JArr []); ("output_text", JStr "")])
  = Throw (Error App.NO_CONTENT)
  /\ Script.normalize (H := Sample.engine) (JObj [("output", JArr []); ("output_text", JStr "")])
     = Throw (Error Script.NO_CONTENT).
Proof.
  destruct (@no_content_error Sample.engine
              (JObj [("output", JArr []); ("output_text", JStr "")]))
    as (Happ & Hscript & _).
  split.
  - apply (Happ [] eq_refl); [ intros item [] | intros item [] | reflexivity ].
  - apply (Hscript [] eq_refl); [ intros item [] | intros item [] | reflexivity ].
Defined.

(** C8, as stated, fails: the body [null] has no structured content item,
    no text content item and no [output_text], and both routines fail on it
    with the TypeError of reading a property of [null], which is none of the
    error kinds of the specification, rather than with the NoContentError. *)
Lemma null_body_is_a_type_error :
  App.normalize (H := Sample.engine) JNull = Throw TypeError
  /\ Script.normalize (H := Sample.engine) JNull = Throw TypeError
  /\ kind_of TypeError = None.
Proof.
  repeat split; reflexivity.
Qed.

(** ** The file written by the batch updater *)

Lemma append_assoc (a b c : string) : (a ++ b) ++ c = a ++ (b ++ c).
Proof.
  induction a as [ | x a IH ]; simpl; [ reflexivity | now rewrite IH ].
Qed.

Lemma stringify_payload `{Platform} (r : Script.Reading) (updated_at : string) :
  isFinite (Script.ppm r) = true ->
  JSON_stringify_2 (Updater.payload r updated_at) ++ newline = expected_file r updated_at.
Proof.
  intro Hfin. unfold JSON_stringify_2, Updater.payload, expected_file. simpl.
  rewrite Hfin. unfold QuoteJSONString. simpl.
  repeat (rewrite append_assoc; simpl). reflexivity.
Qed.

Lemma acquire_reading_finite `{Platform} (w : World) (k : string) (r : Script.Reading) :
  outcome (Updater.acquire w k) = OK r -> isFinite (Script.ppm r) = true.
Proof.
  intro Hr. destruct (acquire_OK w k r Hr) as (response & json & _ & _ & _ & Hnorm).
  unfold Script.normalize in Hnorm.
  destruct (Script.candidate json) as [c | e]; simpl in Hnorm; [ | discriminate ].
  now destruct (Script_validate_OK (snd c) r Hnorm).
Qed.

Lemma main_without_key `{Platform} (w : World) :
  nonempty (OPENAI_API_KEY w) = false ->
  Updater.main w = ([], Throw (Error Script.MISSING_KEY)).
Proof.
  intro Hk. unfold Updater.main.
  destruct (OPENAI_API_KEY w) as [k | ]; [ | reflexivity ].
  rewrite Hk. reflexivity.
Qed.

(** C9.  A run of the batch updater that exits with status 0 made exactly
    one write, to the fixed path, of the pretty-printed object with the four
    members [ppm], [timestamp], [source] and [updated_at] (the validated
    reading and the clock's rendering) followed by a newline, and the file
    then holds exactly that text whatever it held before.  When the request
    or the normalization fails, or no key is configured, the run makes no
    write, leaves the file as it was, and exits with status 1. *)
Theorem updater_writes_payload_or_nothing `{Platform} :
  forall w : World,
    (Updater.exit_status w = 0%N ->
     exists (k : string) (r : Script.Reading),
       OPENAI_API_KEY w = Some k
       /\ outcome (Updater.acquire w k) = OK r
       /\ filter is_event_write (trace (Updater.main w))
          = [WriteFile Updater.fileUrl (expected_file r (now_toISOString w))]
       /\ JSON_stringify_2
            (JObj [("ppm", JNum (Script.ppm r));
                   ("timestamp", JStr (Script.timestamp r));
                   ("source", JStr (Script.source r));
                   ("updated_at", JStr (now_toISOString w))]) ++ newline
          = expected_file r (now_toISOString w)
       /\ forall prior : option string,
           file_after Updater.fileUrl prior (trace (Updater.main w))
           = Some (expected_file r (now_toISOString w)))
    /\ (forall (k : string) (e : exn),
           OPENAI_API_KEY w = Some k ->
           k <> "" ->
           outcome (Updater.acquire w k) = Throw e ->
           filter is_event_write (trace (Updater.main w)) = []
           /\ (forall prior : option string,
                  file_after Updater.fileUrl prior (trace (Updater.main w)) = prior)
           /\ outcome (Updater.main w) = Throw e
           /\ Updater.exit_status w = 1%N)
    /\ (nonempty (OPENAI_API_KEY w) = false ->
        trace (Updater.main w) = []
        /\ outcome (Updater.main w) = Throw (Error Script.MISSING_KEY)
        /\ Updater.exit_status w = 1%N).
Proof.
  intro w. split; [ | split ].
  - intro Hexit. unfold Updater.exit_status in Hexit.
    destruct (nonempty (OPENAI_API_KEY w)) eqn:Hkey.
    2: { rewrite (main_without_key w Hkey) in Hexit. discriminate. }
    destruct (OPENAI_API_KEY w) as [k | ] eqn:Hk; [ | discriminate ].
    assert (Hne : k <> "").
    { apply eqb_empty_neq. simpl in Hkey. now apply negb_true_iff. }
    destruct (main_with_key w k Hk Hne)
      as [(e & Hacq & Hmain) | [(r & Hacq & Hrej & Hmain) | (r & Hacq & Hrej & Hmain)]];
      rewrite Hmain in Hexit; try discriminate.
    pose proof (stringify_payload r (now_toISOString w) (acquire_reading_finite w k r Hacq))
      as Hfile.
    exists k, r. rewrite Hmain. unfold trace. cbn [fst filter is_event_write].
    rewrite Hfile.
    repeat split; try reflexivity; assumption.
  - intros k e Hk Hne Hacq.
    destruct (main_with_key w k Hk Hne)
      as [(e' & Hacq' & Hmain) | [(r & Hacq' & _) | (r & Hacq' & _)]];
      rewrite Hacq in Hacq'; try discriminate.
    injection Hacq' as <-. unfold Updater.exit_status. rewrite Hmain.
    repeat split.
  - intro Hkey. unfold Updater.exit_status. rewrite (main_without_key w Hkey).
    repeat split.
Qed.

Lemma updater_writes_payload_or_nothing_witness :
  Updater.exit_status (H := Sample.engine) Sample.world = 0%N
  /\ filter is_event_write (trace (Updater.main (H := Sample.engine) Sample.world))
     = [WriteFile Updater.fileUrl
          (expected_file (H := Sample.engine) Sample.reading "2024-05-02T08:30:00.000Z")].
Proof.
  assert (Hexit : Updater.exit_status (H := Sample.engine) Sample.world = 0%N)
    by reflexivity.
  destruct (@updater_writes_payload_or_nothing Sample.engine Sample.world) as (Hok & _).
  destruct (Hok Hexit) as (k & r & Hk & Hacq & Hwrites & _).
  split; [ exact Hexit | ].
  injection Hk as <-. injection Hacq as <-. exact Hwrites.
Defined.

(** ** Falling through to the text tier *)

Lemma isJsonContent_object (item : value) :
  App.isJsonContent item = true -> exists props, item = JObj props.
Proof.
  destruct item as [ | b | n | s | items | props ];
    try (unfold App.isJsonContent; simpl; rewrite ?orb_true_r; discriminate).
  intros _. now exists props.
Qed.

Lemma isStructuredItem_isJsonContent (item : value) :
  Script.isStructuredItem item = App.isJsonContent item.
Proof.
  unfold Script.isStructuredItem, App.isJsonContent.
  destruct (ToBoolean (Some item)), (jstype_eqb (typeof (Some item)) TObject);
    reflexivity.
Qed.

Lemma isTextItem_isTextContent (item : value) :
  Script.isTextItem item = App.isTextContent item.
Proof.
  unfold Script.isTextItem, App.isTextContent.
  destruct (ToBoolean (Some item)), (jstype_eqb (typeof (Some item)) TObject);
    reflexivity.
Qed.

Lemma App_text_item_parsed `{Platform} (json : value) (items : list value)
      (it : value) (text : string) (obj : value) :
  find App.isTextContent items = Some it ->
  get it "text" = Some (JStr text) ->
  text <> "" ->
  JSON_parse text = Some obj ->
  App.text_tier json items = OK (Text, obj).
Proof.
  intros Hfind Htext Hne Hparse.
  unfold App.text_tier, App.rawContentCandidate.
  rewrite Hfind, (opt_get_Some _ _ _ Htext). simpl.
  rewrite (neq_empty_eqb _ Hne). simpl.
  unfold JSON_parse_value. simpl. rewrite Hparse. reflexivity.
Qed.

Lemma Script_text_item_parsed `{Platform} (json : value) (items : list value)
      (it : value) (text : string) (obj : value) :
  find Script.isTextItem items = Some it ->
  get it "text" = Some (JStr text) ->
  text <> "" ->
  JSON_parse text = Some obj ->
  Script.text_tier json items = OK (Text, Some obj).
Proof.
  intros Hfind Htext Hne Hparse.
  unfold Script.text_tier, Script.fallbackText, Script.usable.
  rewrite Hfind, (opt_get_Some _ _ _ Htext). simpl.
  rewrite (neq_empty_eqb _ Hne). simpl.
  rewrite Hparse. reflexivity.
Qed.

(** C10, as amended.  When the [json] field of the first tagged content
    item is absent or falsy, both routines go on to the text tier; the app
    does so too when the field is truthy but not an object.  The response
    then yields the reading its text content holds. *)
Theorem unusable_structured_item_falls_through `{Platform} :
  forall json item : value,
    (forall items,
        App.contentItems json = OK items ->
        find App.isJsonContent items = Some item ->
        ToBoolean (get item "json") = false \/ typeof (get item "json") <> TObject ->
        App.candidate json = App.text_tier json items
        /\ forall it text obj r,
            find App.isTextContent items = Some it ->
            get it "text" = Some (JStr text) ->
            text <> "" ->
            JSON_parse text = Some obj ->
            valid_object obj r ->
            App.normalize json = OK obj)
    /\ (forall outs,
           Script.outputItems json = OK outs ->
           find Script.isStructuredItem (Script.contentItems outs) = Some item ->
           ToBoolean (get item "json") = false ->
           Script.candidate json = Script.text_tier json (Script.contentItems outs)
           /\ forall it text obj r,
               find Script.isTextItem (Script.contentItems outs) = Some it ->
               get it "text" = Some (JStr text) ->
               text <> "" ->
               JSON_parse text = Some obj ->
               valid_object obj r ->
               Script.normalize json = OK r).
Proof.
  intros json item. split.
  - intros items Hitems Hfind Hunusable.
    destruct (isJsonContent_object item) as [props ->].
    { now destruct (find_some _ _ Hfind). }
    assert (Hcand : App.candidate json = App.text_tier json items).
    { unfold App.candidate. rewrite Hitems. simpl bind. rewrite Hfind.
      cbv zeta. change (opt_get (Some (JObj props)) "json") with (get (JObj props) "json").
      destruct (get (JObj props) "json") as [parsed | ] eqn:Hj; [ | reflexivity ].
      destruct Hunusable as [Hfalsy | Hty].
      - rewrite Hfalsy. reflexivity.
      - destruct (jstype_eqb (typeof (Some parsed)) TObject) eqn:Hobj.
        + exfalso. apply Hty. destruct parsed; simpl in Hobj; try discriminate; reflexivity.
        + rewrite andb_false_r. reflexivity. }
    split; [ exact Hcand | ].
    intros it text obj r Hit Htext Hne Hparse Hvalid.
    unfold App.normalize.
    rewrite Hcand, (App_text_item_parsed json items it text obj Hit Htext Hne Hparse).
    simpl. now apply App_validate_valid with r.
  - intros outs Houts Hfind Hfalsy.
    destruct (isJsonContent_object item) as [props ->].
    { rewrite <- isStructuredItem_isJsonContent. now destruct (find_some _ _ Hfind). }
    assert (Hcand : Script.candidate json
                    = Script.text_tier json (Script.contentItems outs)).
    { unfold Script.candidate. rewrite Houts. simpl bind. rewrite Hfind.
      cbv zeta. change (opt_get (Some (JObj props)) "json") with (get (JObj props) "json").
      rewrite Hfalsy. reflexivity. }
    split; [ exact Hcand | ].
    intros it text obj r Hit Htext Hne Hparse Hvalid.
    unfold Script.normalize.
    rewrite Hcand, (Script_text_item_parsed json _ it text obj Hit Htext Hne Hparse).
    simpl. now apply Script_validate_valid.
Qed.

Lemma unusable_structured_item_falls_through_witness :
  App.normalize (H := Sample.engine) Fallbacks.json_absent = OK Sample.reading_object
  /\ Script.normalize (H := Sample.engine) Fallbacks.json_absent = OK Sample.reading.
Proof.
  assert (Hvalid : valid_object Sample.reading_object Sample.reading).
  { unfold valid_object. simpl. repeat split; try reflexivity; discriminate. }
  assert (Hne : Sample.reading_text <> "") by discriminate.
  destruct (@unusable_structured_item_falls_through Sample.engine
              Fallbacks.json_absent Responses.tagged_without_json)
    as [Happ Hscript].
  split.
  - destruct (Happ [Responses.tagged_without_json; Fallbacks.text_item]
                eq_refl eq_refl (or_introl eq_refl)) as [_ Hread].
    exact (Hread Fallbacks.text_item Sample.reading_text Sample.reading_object
             Sample.reading eq_refl eq_refl Hne eq_refl Hvalid).
  - destruct (Hscript [JObj [("content",
                               JArr [Responses.tagged_without_json; Fallbacks.text_item])]]
                eq_refl eq_refl eq_refl) as [_ Hread].
    exact (Hread Fallbacks.text_item Sample.reading_text Sample.reading_object
             Sample.reading eq_refl eq_refl Hne eq_refl Hvalid).
Defined.

(** C10, as stated, fails for the batch script.  The [json] field of the
    tagged item of this response is a non-empty string, which is not an
    object; the app goes on to the text item and returns its reading, but the
    batch script tests the field for truthiness only, takes the string as the
    candidate and fails validation. *)
Lemma script_takes_truthy_json_as_candidate :
  get Fallbacks.tagged_with_string "json" = Some (JStr "n/a")
  /\ typeof (Some (JStr "n/a")) = TString
  /\ App.normalize (H := Sample.engine) Fallbacks.json_is_a_string
     = OK Sample.reading_object
  /\ Script.candidate (H := Sample.engine) Fallbacks.json_is_a_string
     = OK (Structured, Some (JStr "n/a"))
  /\ Script.normalize (H := Sample.engine) Fallbacks.json_is_a_string
     = Throw (Error Script.MISSING_FIELDS).
Proof.
  repeat split; reflexivity.
Qed.

(** ** Agreement of the two routines *)

Lemma opt_get_Some_eq (c : value) (k : string) : opt_get (Some c) k = get c k.
Proof. destruct c; reflexivity. Qed.

Lemma find_ext_eq {A : Type} (f g : A -> bool) (l : list A) :
  (forall x, f x = g x) -> find f l = find g l.
Proof.
  intro Hfg. induction l as [ | x rest IH ]; simpl; [ reflexivity | ].
  rewrite Hfg, IH. reflexivity.
Qed.

Lemma flatMap_content_shaped (outs : list value) :
  forallb shaped_item outs = true ->
  App.flatMap_content outs = OK (Script.contentItems outs).
Proof.
  induction outs as [ | item rest IH ]; [ reflexivity | ].
  intro Hshaped. cbn [forallb] in Hshaped.
  apply andb_true_iff in Hshaped as [Hitem Hrest].
  cbn [App.flatMap_content Script.contentItems flat_map].
  rewrite (IH Hrest). unfold App.content_of.
  rewrite opt_get_Some_eq.
  destruct item; simpl in Hitem |- *; try discriminate; try reflexivity.
  destruct (lookup "content" props) as [[ | | | | l | ] | ];
    simpl in Hitem |- *; try discriminate; reflexivity.
Qed.

Lemma contentItems_shaped (json : value) (outs : list value) :
  shaped_output json = true ->
  Script.outputItems json = OK outs ->
  App.contentItems json = OK (Script.contentItems outs).
Proof.
  unfold shaped_output, Script.outputItems, App.contentItems.
  destruct json; simpl; try discriminate;
    try (intros _ Houts; injection Houts as <-; reflexivity).
  destruct (lookup "output" props) as [[ | | | | l | ] | ]; simpl;
    try discriminate;
    try (intros _ Houts; injection Houts as <-; reflexivity).
  intros Hshaped Houts. injection Houts as <-. now apply flatMap_content_shaped.
Qed.

Lemma isTextContent_text (it : value) :
  App.isTextContent it = true -> exists s, get it "text" = Some (JStr s).
Proof.
  destruct it as [ | b | n | s | items | props ];
    try (unfold App.isTextContent; simpl; rewrite ?orb_true_r; discriminate).
  unfold App.isTextContent. simpl.
  destruct (lookup "text" props) as [[ | | | s | | ] | ]; try discriminate.
  intros _. now exists s.
Qed.

Lemma output_text_candidate_typed (json : value) :
  typed_output_text json = true ->
  Script.output_text_candidate json = App.output_text_candidate json
  /\ (App.output_text_candidate json = None
      \/ App.output_text_candidate json = Some JNull
      \/ exists s, App.output_text_candidate json = Some (JStr s)).
Proof.
  unfold typed_output_text, Script.output_text_candidate, App.output_text_candidate.
  destruct (get json "output_text") as [[ | | | s | l | ] | ]; try discriminate;
    try (intros _; split; [ reflexivity | ]; auto; right; right; now exists s).
  destruct l as [ | [ | | | s | | ] rest ]; try discriminate; intros _.
  - split; [ reflexivity | now left ].
  - split; [ reflexivity | right; right; now exists s ].
Qed.

(** Under the typing of [output_text], the two text candidates coincide and
    are a string when they are not nullish. *)
Lemma text_candidates_agree (json : value) (items : list value) :
  typed_output_text json = true ->
  Script.fallbackText json items = App.rawContentCandidate json items
  /\ (App.rawContentCandidate json items = None
      \/ App.rawContentCandidate json items = Some JNull
      \/ exists s, App.rawContentCandidate json items = Some (JStr s)).
Proof.
  intro Htyped.
  destruct (output_text_candidate_typed json Htyped) as [Heq Hcases].
  unfold Script.fallbackText, App.rawContentCandidate.
  rewrite (find_ext_eq _ _ items isTextItem_isTextContent), Heq.
  split; [ reflexivity | ].
  destruct (find App.isTextContent items) as [it | ] eqn:Hfind.
  - destruct (find_some _ _ Hfind) as [_ Hit].
    destruct (isTextContent_text it Hit) as [s Hs].
    rewrite (opt_get_Some _ _ _ Hs). right. right. now exists s.
  - exact Hcases.
Qed.

Lemma text_tiers_agree `{Platform} (json : value) (items : list value) :
  typed_output_text json = true ->
  same_candidate (App.text_tier json items) (Script.text_tier json items).
Proof.
  intro Htyped.
  destruct (text_candidates_agree json items Htyped) as [Heq Hcases].
  unfold App.text_tier, Script.text_tier. rewrite Heq.
  destruct Hcases as [-> | [-> | [s ->]]]; try exact I.
  unfold Script.usable. simpl.
  destruct (s =? ""); simpl; [ exact I | ].
  unfold JSON_parse_value. simpl.
  destruct (JSON_parse s); simpl; [ reflexivity | exact I ].
Qed.

Lemma candidates_agree `{Platform} (json : value) :
  conforming json = true ->
  same_candidate (App.candidate json) (Script.candidate json).
Proof.
  unfold conforming. intro Hconf.
  apply andb_true_iff in Hconf as [Hconf Hembedded].
  apply andb_true_iff in Hconf as [Hshaped Htyped].
  unfold App.candidate, Script.candidate.
  destruct (Script.outputItems json) as [outs | e] eqn:Houts.
  - rewrite (contentItems_shaped json outs Hshaped Houts). simpl bind. cbv zeta.
    unfold embedded_object_or_nothing in Hembedded. rewrite Houts in Hembedded.
    cbv zeta in Hembedded.
    rewrite (find_ext_eq _ _ _ isStructuredItem_isJsonContent) in Hembedded |- *.
    destruct (opt_get (find App.isJsonContent (Script.contentItems outs)) "json")
      as [parsed | ] eqn:Hj.
    + destruct (ToBoolean (Some parsed)) eqn:Htruthy; simpl in Hembedded |- *.
      * rewrite Hembedded. reflexivity.
      * now apply text_tiers_agree.
    + simpl. now apply text_tiers_agree.
  - assert (json = JNull) as ->.
    { unfold Script.outputItems in Houts. destruct json; simpl in Houts; try discriminate.
      reflexivity. }
    exact I.
Qed.

Lemma isFinite_nan : isFinite nan = false.
Proof. reflexivity. Qed.

Lemma validations_agree `{Platform} (c : value) :
  typed_fields c = true ->
  agree (App.validate c) (Script.validate (Some c)).
Proof.
  unfold typed_fields, App.validate, Script.validate. rewrite !opt_get_Some_eq.
  destruct c as [ | b | n | s | items | props ]; simpl;
    try (intros _; exact I).
  destruct (lookup "ppm" props) as [[ | | n | | | ] | ] eqn:Hppm;
    simpl; try discriminate.
  - intro Htyped.
    apply andb_true_iff in Htyped as [Htyped Ht].
    apply andb_true_iff in Htyped as [Hfin Hs].
    rewrite Hfin. simpl.
    destruct (lookup "source" props) as [[ | | | s | | ] | ] eqn:Hsource;
      try discriminate;
      simpl; [ | now destruct (lookup "timestamp" props) as [[ | | | | | ] | ] ].
    destruct (lookup "timestamp" props) as [[ | | | t | | ] | ] eqn:Htimestamp;
      try discriminate;
      simpl; [ | destruct (s =? ""); exact I ].
    destruct (s =? ""); simpl; [ exact I | ].
    destruct (t =? ""); simpl; [ exact I | ].
    unfold same_reading. simpl. now rewrite Hppm, Hsource, Htimestamp.
  - intros _.
    destruct (lookup "source" props) as [[ | | | s | | ] | ]; try exact I.
    destruct (lookup "timestamp" props) as [[ | | | t | | ] | ]; exact I.
Qed.

(** C6, as amended.  On a response of the declared shape ([output] absent,
    [null] or an array of non-null elements whose [content] is absent, [null]
    or an array; [output_text] absent, [null], a string or an array that
    starts with a string; the [json] of the first tagged item absent, falsy
    or an object) whose candidate has fields of the schema's types where
    present, the two routines agree: both return readings with equal [ppm],
    [source] and [timestamp], or both fail. *)
Theorem routines_agree_on_conforming_responses `{Platform} :
  forall json : value,
    conforming json = true ->
    (forall t c, App.candidate json = OK (t, c) -> typed_fields c = true) ->
    agree (App.normalize json) (Script.normalize json).
Proof.
  intros json Hconf Htyped.
  pose proof (candidates_agree json Hconf) as Hsame.
  unfold App.normalize, Script.normalize.
  destruct (App.candidate json) as [[t c] | e];
    destruct (Script.candidate json) as [[t' c'] | e']; simpl in Hsame |- *;
    try contradiction; try exact I.
  subst c'. apply validations_agree. now apply (Htyped t).
Qed.

Lemma routines_agree_on_conforming_responses_witness :
  conforming Sample.structured_response = true
  /\ agree (App.normalize (H := Sample.engine) Sample.structured_response)
           (Script.normalize (H := Sample.engine) Sample.structured_response).
Proof.
  assert (Hconf : conforming Sample.structured_response = true) by reflexivity.
  split; [ exact Hconf | ].
  apply (@routines_agree_on_conforming_responses Sample.engine
           Sample.structured_response Hconf).
  intros t c Hc. injection Hc as <- <-. reflexivity.
Defined.

(** C6, as stated, fails: the two routines are not extensionally equal.  On
    the first response, whose structured item embeds a reading with the
    numeric string ["421"] as [ppm], the batch script returns a reading with
    [ppm] 421 and the app fails; on the second, where [ppm] is [null], the
    batch script returns a reading with [ppm] 0, the value of
    [Number(null)], and the app fails. *)
Lemma routines_disagree_on_numeric_string :
  Script.normalize (H := Sample.engine) numeric_string_response
  = OK {| Script.ppm := 421%float;
          Script.source := "https://example.org/co2";
          Script.timestamp := "2024-05-01T00:00:00Z" |}
  /\ App.normalize (H := Sample.engine) numeric_string_response
     = Throw (Error App.MISSING_FIELDS)
  /\ Script.normalize (H := Sample.engine) null_ppm_response
     = OK {| Script.ppm := 0%float;
             Script.source := "https://example.org/co2";
             Script.timestamp := "2024-05-01T00:00:00Z" |}
  /\ App.normalize (H := Sample.engine) null_ppm_response
     = Throw (Error App.MISSING_FIELDS).
Proof.
  repeat split; reflexivity.
Qed.

(** ** Further properties of the specification *)

(** X1.  Text content that is not valid JSON: when no structured item
    embeds anything and the text candidate is a non-empty string that
    [JSON.parse] rejects, both routines fail with the MalformedJsonError. *)
Theorem malformed_text_is_rejected `{Platform} :
  forall (json : value) (text : string),
    text <> "" ->
    JSON_parse text = None ->
    (forall items,
        App.contentItems json = OK items ->
        opt_get (find App.isJsonContent items) "json" = None ->
        App.rawContentCandidate json items = Some (JStr text) ->
        App.normalize json = Throw (Error App.PARSE_FAILED))
    /\ (forall outs,
           Script.outputItems json = OK outs ->
           opt_get (find Script.isStructuredItem (Script.contentItems outs)) "json" = None ->
           Script.fallbackText json (Script.contentItems outs) = Some (JStr text) ->
           Script.normalize json = Throw (Error Script.PARSE_FAILED))
    /\ kind_of (Error App.PARSE_FAILED) = Some MalformedJsonError
    /\ kind_of (Error Script.PARSE_FAILED) = Some MalformedJsonError.
Proof.
  intros json text Hne Hparse. split; [ | split; [ | split; reflexivity ] ].
  - intros items Hitems Hj Hraw.
    unfold App.normalize, App.candidate. rewrite Hitems. simpl bind. cbv zeta.
    rewrite Hj. unfold App.text_tier. rewrite Hraw. simpl ToBoolean.
    rewrite (neq_empty_eqb _ Hne). simpl negb. cbv iota.
    unfold JSON_parse_value. simpl ToString. simpl bind. rewrite Hparse. reflexivity.
  - intros outs Houts Hj Hfb.
    unfold Script.normalize, Script.candidate. rewrite Houts. simpl bind. cbv zeta.
    rewrite Hj. simpl ToBoolean. simpl negb. cbv iota.
    unfold Script.text_tier. rewrite Hfb. unfold Script.usable. simpl.
    rewrite (neq_empty_eqb _ Hne). simpl. rewrite Hparse. reflexivity.
Qed.

Lemma malformed_text_is_rejected_witness :
  App.normalize (H := Sample.engine) Answers.prose_response
  = Throw (Error App.PARSE_FAILED)
  /\ Script.normalize (H := Sample.engine) Answers.prose_response
     = Throw (Error Script.PARSE_FAILED).
Proof.
  assert (Hne : Answers.prose_text <> "") by discriminate.
  destruct (@malformed_text_is_rejected Sample.engine Answers.prose_response
              Answers.prose_text Hne eq_refl) as (Happ & Hscript & _).
  split.
  - apply (Happ [JObj [("type", JStr "output_text"); ("text", JStr Answers.prose_text)]]);
      reflexivity.
  - apply (Hscript [JObj [("content",
                           JArr [JObj [("type", JStr "output_text");
                                       ("text", JStr Answers.prose_text)]])]]);
      reflexivity.
Defined.

(** X2.  A response without a structured content item whose first text
    content item holds, as JSON text, an object with a valid
    [{ppm, source, timestamp}] yields that reading in both routines. *)
Theorem text_reading_is_returned `{Platform} :
  forall (json it : value) (text : string) (obj : value) (r : Script.Reading),
    get it "text" = Some (JStr text) ->
    text <> "" ->
    JSON_parse text = Some obj ->
    valid_object obj r ->
    (forall items,
        App.contentItems json = OK items ->
        find App.isJsonContent items = None ->
        find App.isTextContent items = Some it ->
        App.candidate json = OK (Text, obj) /\ App.normalize json = OK obj)
    /\ (forall outs,
           Script.outputItems json = OK outs ->
           find Script.isStructuredItem (Script.contentItems outs) = None ->
           find Script.isTextItem (Script.contentItems outs) = Some it ->
           Script.candidate json = OK (Text, Some obj) /\ Script.normalize json = OK r).
Proof.
  intros json it text obj r Htext Hne Hparse Hvalid. split.
  - intros items Hitems Hjson Hit.
    assert (Hcand : App.candidate json = OK (Text, obj)).
    { rewrite (App_candidate_no_structured json items Hitems Hjson).
      now apply App_text_item_parsed with it text. }
    split; [ exact Hcand | ].
    unfold App.normalize. rewrite Hcand. simpl. now apply App_validate_valid with r.
  - intros outs Houts Hjson Hit.
    assert (Hcand : Script.candidate json = OK (Text, Some obj)).
    { rewrite (Script_candidate_no_structured json outs Houts Hjson).
      now apply Script_text_item_parsed with it text. }
    split; [ exact Hcand | ].
    unfold Script.normalize. rewrite Hcand. simpl. now apply Script_validate_valid.
Qed.

Lemma text_reading_is_returned_witness :
  App.normalize (H := Sample.engine)
    (JObj [("output", JArr [JObj [("content", JArr [Fallbacks.text_item])]])])
  = OK Sample.reading_object
  /\ Script.normalize (H := Sample.engine)
       (JObj [("output", JArr [JObj [("content", JArr [Fallbacks.text_item])]])])
     = OK Sample.reading.
Proof.
  assert (Hvalid : valid_object Sample.reading_object Sample.reading).
  { unfold valid_object. simpl. repeat split; try reflexivity; discriminate. }
  assert (Hne : Sample.reading_text <> "") by discriminate.
  destruct (@text_reading_is_returned Sample.engine
              (JObj [("output", JArr [JObj [("content", JArr [Fallbacks.text_item])]])])
              Fallbacks.text_item Sample.reading_text Sample.reading_object Sample.reading
              eq_refl Hne eq_refl Hvalid) as [Happ Hscript].
  split.
  - now destruct (Happ [Fallbacks.text_item] eq_refl eq_refl eq_refl).
  - now destruct (Hscript [JObj [("content", JArr [Fallbacks.text_item])]]
                    eq_refl eq_refl eq_refl).
Defined.

(** X3.  When a credential is found and the endpoint answers without
    success status, both programs fail with the RequestError, whose message
    carries the status code, the status text and the body text, after the
    one request and, in the batch script, without writing. *)
Theorem unsuccessful_status_is_a_request_error `{Platform} :
  forall (w : World) (response : HttpResponse),
    endpoint w = Some response ->
    ok response = false ->
    (forall k, getOpenAIApiKey w = Some k ->
               fetchCurrentCo2 w
               = ([Fetch API_URL ("Bearer " ++ k)], Throw (Error (request_failed response))))
    /\ (forall k, OPENAI_API_KEY w = Some k -> k <> "" ->
                  Updater.main w
                  = ([Fetch API_URL ("Bearer " ++ k)], Throw (Error (request_failed response))))
    /\ kind_of (Error (request_failed response)) = Some RequestError
    /\ request_failed response
       = "OpenAI request failed: " ++ status_text (status response) ++ " "
         ++ statusText response ++ " - " ++ body response.
Proof.
  intros w response Hendpoint Hok.
  split; [ | split; [ | split; [ apply request_failed_kind | reflexivity ] ] ].
  - intros k Hk. pose proof (getOpenAIApiKey_nonempty w k Hk) as Hne.
    unfold fetchCurrentCo2. rewrite Hk.
    unfold nonempty. rewrite (neq_empty_eqb _ Hne). simpl negb. cbv iota.
    unfold fetch, io_bind. rewrite Hendpoint, Hok. reflexivity.
  - intros k Hk Hne.
    assert (Hacq : Updater.acquire w k
                   = ([Fetch API_URL ("Bearer " ++ k)],
                      Throw (Error (request_failed response)))).
    { unfold Updater.acquire, fetch, io_bind. rewrite Hendpoint, Hok. reflexivity. }
    unfold Updater.main. rewrite Hk.
    unfold nonempty. rewrite (neq_empty_eqb _ Hne). simpl negb. cbv iota.
    rewrite Hacq. reflexivity.
Qed.

Lemma unsuccessful_status_is_a_request_error_witness :
  outcome (Updater.main (H := Sample.engine) Answers.unauthorized)
  = Throw (Error "OpenAI request failed: 401 Unauthorized - invalid key")
  /\ outcome (fetchCurrentCo2 (H := Sample.engine) Answers.unauthorized)
     = Throw (Error "OpenAI request failed: 401 Unauthorized - invalid key").
Proof.
  assert (Hne : "sk-test" <> "") by discriminate.
  destruct (@unsuccessful_status_is_a_request_error Sample.engine Answers.unauthorized
              {| ok := false; status := 401; statusText := "Unauthorized";
                 body := "invalid key" |} eq_refl eq_refl) as (Happ & Hscript & _).
  split.
  - rewrite (Hscript "sk-test" eq_refl Hne). reflexivity.
  - rewrite (Happ "sk-test" eq_refl). reflexivity.
Defined.

(** ** How a run can fail, and what it does on the way *)

Lemma fetchCurrentCo2_without_key `{Platform} (w : World) :
  getOpenAIApiKey w = None ->
  fetchCurrentCo2 w = ([], Throw (Error App.MISSING_KEY)).
Proof.
  intro Hk. unfold fetchCurrentCo2. rewrite Hk. reflexivity.
Qed.

Lemma fetchCurrentCo2_Throw `{Platform} (w : World) (e : exn) :
  outcome (fetchCurrentCo2 w) = Throw e ->
  e = Error App.MISSING_KEY
  \/ e = FetchRejected
  \/ (exists response,
         endpoint w = Some response /\ ok response = false
         /\ e = Error (request_failed response))
  \/ e = SyntaxError
  \/ App_normalize_error e.
Proof.
  unfold fetchCurrentCo2.
  destruct (getOpenAIApiKey w) as [k | ] eqn:Hk;
    [ | simpl; intro He; injection He as <-; now left ].
  unfold nonempty. rewrite (neq_empty_eqb _ (getOpenAIApiKey_nonempty w k Hk)).
  simpl negb. cbv iota.
  unfold fetch, io_bind, io_throw, io_lift, outcome.
  destruct (endpoint w) as [response | ];
    [ | simpl; intro He; injection He as <-; right; now left ].
  destruct (ok response) eqn:Hok; simpl.
  - destruct (response_json response) as [json | e'] eqn:Hjson; simpl.
    + intro He. right. right. right. right. now apply App_normalize_Throw with json.
    + intro He. injection He as <-. right. right. right. left.
      unfold response_json in Hjson.
      destruct (JSON_parse (body response)); [ discriminate | ]. now injection Hjson.
  - intro He. injection He as <-. right. right. left. now exists response.
Qed.

(** X4.  Every failure of a run is one of a fixed list.  [fetchCurrentCo2]
    fails with its missing-key error, the rejection of [fetch], the
    request error built from an answer without success status, the
    SyntaxError of a body that is not JSON, or an error of its normalizer
    (TypeError, no content, parse failure, missing fields); the batch
    script fails in the same ways, with its own messages, or with the
    rejection of [writeFile]. *)
Theorem failures_are_classified `{Platform} :
  forall (w : World) (e : exn),
    (outcome (fetchCurrentCo2 w) = Throw e ->
     e = Error App.MISSING_KEY
     \/ e = FetchRejected
     \/ (exists response,
            endpoint w = Some response /\ ok response = false
            /\ e = Error (request_failed response))
     \/ e = SyntaxError
     \/ App_normalize_error e)
    /\ (outcome (Updater.main w) = Throw e ->
        e = Error Script.MISSING_KEY
        \/ e = FetchRejected
        \/ (exists response, e = Error (request_failed response))
        \/ e = SyntaxError
        \/ Script_normalize_error e
        \/ e = FsRejected).
Proof.
  intros w e. split; [ apply fetchCurrentCo2_Throw | ].
  destruct (nonempty (OPENAI_API_KEY w)) eqn:Hkey.
  - destruct (OPENAI_API_KEY w) as [k | ] eqn:Hk; [ | discriminate ].
    assert (Hne : k <> "").
    { apply eqb_empty_neq. simpl in Hkey. now apply negb_true_iff. }
    destruct (main_with_key w k Hk Hne)
      as [(e' & Hacq & Hmain) | [(r & _ & _ & Hmain) | (r & _ & _ & Hmain)]];
      rewrite Hmain; unfold outcome; simpl; intro He; try discriminate.
    + injection He as <-.
      destruct (acquire_Throw w k e' Hacq) as [-> | [Hreq | [-> | Hnorm]]].
      * right. now left.
      * right. right. now left.
      * do 3 right. now left.
      * do 4 right. now left.
    + injection He as <-. do 5 right. reflexivity.
  - rewrite (main_without_key w Hkey). unfold outcome. simpl.
    intro He. injection He as <-. now left.
Qed.

Lemma failures_are_classified_witness :
  outcome (Updater.main (H := Sample.engine) Answers.unauthorized)
  = Throw (Error "OpenAI request failed: 401 Unauthorized - invalid key")
  /\ (Error "OpenAI request failed: 401 Unauthorized - invalid key"
      = Error Script.MISSING_KEY
      \/ Error "OpenAI request failed: 401 Unauthorized - invalid key" = FetchRejected
      \/ (exists response,
             Error "OpenAI request failed: 401 Unauthorized - invalid key"
             = Error (request_failed response))
      \/ Error "OpenAI request failed: 401 Unauthorized - invalid key" = SyntaxError
      \/ Script_normalize_error
           (Error "OpenAI request failed: 401 Unauthorized - invalid key")
      \/ Error "OpenAI request failed: 401 Unauthorized - invalid key" = FsRejected).
Proof.
  split; [ reflexivity | ].
  exact (proj2 (@failures_are_classified Sample.engine Answers.unauthorized
                  (Error "OpenAI request failed: 401 Unauthorized - invalid key"))
               eq_refl).
Defined.

(** X5.  A run makes its outside calls in a fixed order and never repeats
    one.  [fetchCurrentCo2] makes no call when no key is found and otherwise
    exactly one request, to the fixed endpoint, with the non-empty key it
    resolved.  The batch script makes no call without a key; with one it
    makes one request and then stops on a failure, or writes once and stops
    when the write is rejected, or writes once and logs once: it never
    writes before the request has succeeded and never logs success without
    the write. *)
Theorem runs_call_out_once_and_in_order `{Platform} :
  forall w : World,
    ((getOpenAIApiKey w = None /\ trace (fetchCurrentCo2 w) = [])
     \/ exists k, getOpenAIApiKey w = Some k /\ k <> ""
                  /\ trace (fetchCurrentCo2 w) = [Fetch API_URL ("Bearer " ++ k)])
    /\ ((nonempty (OPENAI_API_KEY w) = false /\ trace (Updater.main w) = [])
        \/ exists k, OPENAI_API_KEY w = Some k /\ k <> ""
             /\ ((trace (Updater.main w) = [Fetch API_URL ("Bearer " ++ k)]
                  /\ exists e, outcome (Updater.main w) = Throw e)
                 \/ (exists content,
                        trace (Updater.main w)
                        = [Fetch API_URL ("Bearer " ++ k);
                           WriteFile Updater.fileUrl content]
                        /\ outcome (Updater.main w) = Throw FsRejected)
                 \/ (exists content line,
                        trace (Updater.main w)
                        = [Fetch API_URL ("Bearer " ++ k);
                           WriteFile Updater.fileUrl content;
                           ConsoleLog line]
                        /\ outcome (Updater.main w) = OK tt))).
Proof.
  intro w. split.
  - destruct (getOpenAIApiKey w) as [k | ] eqn:Hk.
    + right. exists k. split; [ reflexivity | ].
      split; [ now apply getOpenAIApiKey_nonempty with w | ].
      now destruct (fetchCurrentCo2_with_key w k Hk).
    + left. split; [ reflexivity | ].
      now rewrite (fetchCurrentCo2_without_key w Hk).
  - destruct (nonempty (OPENAI_API_KEY w)) eqn:Hkey.
    + right. destruct (OPENAI_API_KEY w) as [k | ] eqn:Hk; [ | discriminate ].
      assert (Hne : k <> "").
      { apply eqb_empty_neq. simpl in Hkey. now apply negb_true_iff. }
      exists k. split; [ reflexivity | split; [ exact Hne | ] ].
      destruct (main_with_key w k Hk Hne)
        as [(e & _ & Hmain) | [(r & _ & _ & Hmain) | (r & _ & _ & Hmain)]];
        rewrite Hmain; unfold trace, outcome; simpl.
      * left. split; [ reflexivity | now exists e ].
      * right. left. eexists. split; reflexivity.
      * right. right. eexists. eexists. split; reflexivity.
    + left. split; [ reflexivity | ]. now rewrite (main_without_key w Hkey).
Qed.

(** ** Precedence between the sources of a candidate *)

(** X6.  A text content item whose [text] is the empty string shuts out
    [output_text]: [??] passes over [null] and [undefined] only, so when no
    structured candidate is taken and the first text content item is empty,
    both routines fail with their no-content error whatever [output_text]
    holds. *)
Theorem empty_text_item_shuts_out_output_text `{Platform} :
  forall json it : value,
    get it "text" = Some (JStr "") ->
    (forall items,
        App.contentItems json = OK items ->
        ToBoolean (opt_get (find App.isJsonContent items) "json")
        && jstype_eqb (typeof (opt_get (find App.isJsonContent items) "json")) TObject
        = false ->
        find App.isTextContent items = Some it ->
        App.normalize json = Throw (Error App.NO_CONTENT))
    /\ (forall outs,
           Script.outputItems json = OK outs ->
           ToBoolean (opt_get (find Script.isStructuredItem (Script.contentItems outs)) "json")
           = false ->
           find Script.isTextItem (Script.contentItems outs) = Some it ->
           Script.normalize json = Throw (Error Script.NO_CONTENT)).
Proof.
  intros json it Htext. split.
  - intros items Hitems Hj Hit.
    assert (Htier : App.text_tier json items = Throw (Error App.NO_CONTENT)).
    { unfold App.text_tier, App.rawContentCandidate.
      rewrite Hit, (opt_get_Some _ _ _ Htext). reflexivity. }
    unfold App.normalize, App.candidate. rewrite Hitems. simpl bind. cbv zeta.
    destruct (opt_get (find App.isJsonContent items) "json") as [parsed | ].
    + rewrite Hj, Htier. reflexivity.
    + rewrite Htier. reflexivity.
  - intros outs Houts Hj Hit.
    unfold Script.normalize, Script.candidate. rewrite Houts. simpl bind. cbv zeta.
    rewrite Hj. simpl negb. cbv iota.
    unfold Script.text_tier, Script.fallbackText.
    rewrite Hit, (opt_get_Some _ _ _ Htext). reflexivity.
Qed.

Lemma empty_text_item_shuts_out_output_text_witness :
  App.normalize (H := Sample.engine)
    (JObj [("output", JArr [JObj [("content", JArr [JObj [("text", JStr "")]])]]);
           ("output_text", JStr Sample.reading_text)])
  = Throw (Error App.NO_CONTENT)
  /\ Script.normalize (H := Sample.engine)
       (JObj [("output", JArr [JObj [("content", JArr [JObj [("text", JStr "")]])]]);
              ("output_text", JStr Sample.reading_text)])
     = Throw (Error Script.NO_CONTENT).
Proof.
  destruct (@empty_text_item_shuts_out_output_text Sample.engine
              (JObj [("output", JArr [JObj [("content", JArr [JObj [("text", JStr "")]])]]);
                     ("output_text", JStr Sample.reading_text)])
              (JObj [("text", JStr "")]) eq_refl) as [Happ Hscript].
  split.
  - apply (Happ [JObj [("text", JStr "")]]); reflexivity.
  - apply (Hscript [JObj [("content", JArr [JObj [("text", JStr "")]])]]); reflexivity.
Defined.

(** X7.  A structured candidate is final: once the first tagged content
    item embeds a truthy object (for the batch script, any truthy value),
    the result of the routine is the result of validating that value, and
    nothing else in the response, neither text content nor [output_text],
    is used, also when the validation fails. *)
Theorem structured_candidate_is_final `{Platform} :
  forall json item j : value,
    get item "json" = Some j ->
    ToBoolean (Some j) = true ->
    (forall items,
        App.contentItems json = OK items ->
        find App.isJsonContent items = Some item ->
        typeof (Some j) = TObject ->
        App.normalize json = App.validate j)
    /\ (forall outs,
           Script.outputItems json = OK outs ->
           find Script.isStructuredItem (Script.contentItems outs) = Some item ->
           Script.normalize json = Script.validate (Some j)).
Proof.
  intros json item j Hj Htruthy. split.
  - intros items Hitems Hfind Hobj.
    unfold App.normalize, App.candidate. rewrite Hitems. simpl bind. cbv zeta.
    rewrite Hfind, (opt_get_Some _ _ _ Hj), Htruthy, Hobj. reflexivity.
  - intros outs Houts Hfind.
    unfold Script.normalize, Script.candidate. rewrite Houts. simpl bind. cbv zeta.
    rewrite Hfind, (opt_get_Some _ _ _ Hj), Htruthy. reflexivity.
Qed.

Lemma structured_candidate_is_final_witness :
  App.normalize (H := Sample.engine)
    (JObj [("output",
            JArr [JObj [("content",
                         JArr [JObj [("type", JStr "json"); ("json", JArr [])];
                               Fallbacks.text_item])]])])
  = Throw (Error App.MISSING_FIELDS)
  /\ Script.normalize (H := Sample.engine)
       (JObj [("output",
               JArr [JObj [("content",
                            JArr [JObj [("type", JStr "json"); ("json", JArr [])];
                                  Fallbacks.text_item])]])])
     = Throw (Error Script.MISSING_FIELDS).
Proof.
  destruct (@structured_candidate_is_final Sample.engine
              (JObj [("output",
                      JArr [JObj [("content",
                                   JArr [JObj [("type", JStr "json"); ("json", JArr [])];
                                         Fallbacks.text_item])]])])
              (JObj [("type", JStr "json"); ("json", JArr [])]) (JArr [])
              eq_refl eq_refl) as [Happ Hscript].
  split.
  - rewrite (Happ [JObj [("type", JStr "json"); ("json", JArr [])]; Fallbacks.text_item]
               eq_refl eq_refl eq_refl).
    reflexivity.
  - rewrite (Hscript [JObj [("content",
                             JArr [JObj [("type", JStr "json"); ("json", JArr [])];
                                   Fallbacks.text_item])]]
               eq_refl eq_refl).
    reflexivity.
Defined.

(** X8.  What the coercion of [ppm] lets through in the batch script: with
    [source] and [timestamp] non-empty strings, a candidate whose [ppm] is
    [null] or [false] is accepted with the concentration 0 and one whose
    [ppm] is [true] with 1, while a candidate without [ppm] is rejected; the
    app rejects all four. *)
Theorem script_accepts_null_and_boolean_ppm `{Platform} :
  forall (props : list (string * value)) (s t : string),
    lookup "source" props = Some (JStr s) -> s <> "" ->
    lookup "timestamp" props = Some (JStr t) -> t <> "" ->
    (lookup "ppm" props = Some JNull ->
     Script.validate (Some (JObj props))
     = OK {| Script.ppm := zero; Script.source := s; Script.timestamp := t |}
     /\ App.validate (JObj props) = Throw (Error App.MISSING_FIELDS))
    /\ (forall b, lookup "ppm" props = Some (JBool b) ->
                  Script.validate (Some (JObj props))
                  = OK {| Script.ppm := if b then one else zero;
                          Script.source := s; Script.timestamp := t |}
                  /\ App.validate (JObj props) = Throw (Error App.MISSING_FIELDS))
    /\ (lookup "ppm" props = None ->
        Script.validate (Some (JObj props)) = Throw (Error Script.MISSING_FIELDS)
        /\ App.validate (JObj props) = Throw (Error App.MISSING_FIELDS)).
Proof.
  intros props s t Hs Hs' Ht Ht'.
  assert (Happ : typeof (lookup "ppm" props) <> TNumber ->
                 App.validate (JObj props) = Throw (Error App.MISSING_FIELDS)).
  { intro Hty. apply App_validate_not_number; [ discriminate | exact Hty ]. }
  split; [ | split ].
  - intro Hp. split; [ | apply Happ; rewrite Hp; discriminate ].
    unfold Script.validate. simpl. rewrite Hp, Hs, Ht. simpl.
    rewrite (neq_empty_eqb _ Hs'), (neq_empty_eqb _ Ht'). reflexivity.
  - intros b Hp. split; [ | apply Happ; rewrite Hp; discriminate ].
    unfold Script.validate. simpl. rewrite Hp, Hs, Ht. simpl.
    rewrite (neq_empty_eqb _ Hs'), (neq_empty_eqb _ Ht').
    destruct b; reflexivity.
  - intro Hp. split; [ | apply Happ; rewrite Hp; discriminate ].
    unfold Script.validate. simpl. rewrite Hp, Hs, Ht. reflexivity.
Qed.

Lemma script_accepts_null_and_boolean_ppm_witness :
  Script.validate (H := Sample.engine) (Some Candidates.ppm_null)
  = OK {| Script.ppm := zero;
          Script.source := "https://example.org/co2";
          Script.timestamp := "2024-05-01T00:00:00Z" |}
  /\ App.validate Candidates.ppm_null = Throw (Error App.MISSING_FIELDS).
Proof.
  assert (Hs : "https://example.org/co2" <> "") by discriminate.
  assert (Ht : "2024-05-01T00:00:00Z" <> "") by discriminate.
  destruct (@script_accepts_null_and_boolean_ppm Sample.engine
              [("ppm", JNull);
               ("source", JStr "https://example.org/co2");
               ("timestamp", JStr "2024-05-01T00:00:00Z")]
              "https://example.org/co2" "2024-05-01T00:00:00Z"
              eq_refl Hs eq_refl Ht) as (Hnull & _).
  exact (Hnull eq_refl).
Defined.

(** X9.  The two copies collect and classify content items alike.  On a
    response whose [output] is absent, [null] or an array of non-null
    elements with a [content] that is absent, [null] or an array, the app's
    [flatMap] over [item.content ?? []] and the batch script's [flatMap]
    guarded by [Array.isArray] give the same list of content items; and the
    app's [isJsonContent] and [isTextContent], written with an early
    return, are the same functions as the predicates the batch script
    passes to [find], so both find the same structured item and the same
    text item in that list. *)
Theorem content_items_coincide :
  forall (json : value) (outs : list value),
    shaped_output json = true ->
    Script.outputItems json = OK outs ->
    App.contentItems json = OK (Script.contentItems outs)
    /\ find Script.isStructuredItem (Script.contentItems outs)
       = find App.isJsonContent (Script.contentItems outs)
    /\ find Script.isTextItem (Script.contentItems outs)
       = find App.isTextContent (Script.contentItems outs)
    /\ forall item : value,
         Script.isStructuredItem item = App.isJsonContent item
         /\ Script.isTextItem item = App.isTextContent item.
Proof.
  intros json outs Hshaped Houts.
  split; [ now apply contentItems_shaped | ].
  split; [ apply find_ext_eq, isStructuredItem_isJsonContent | ].
  split; [ apply find_ext_eq, isTextItem_isTextContent | ].
  intro item. split;
    [ apply isStructuredItem_isJsonContent | apply isTextItem_isTextContent ].
Qed.

Lemma content_items_coincide_witness :
  App.contentItems Fallbacks.json_absent
  = OK [Responses.tagged_without_json; Fallbacks.text_item]
  /\ find Script.isTextItem [Responses.tagged_without_json; Fallbacks.text_item]
     = find App.isTextContent [Responses.tagged_without_json; Fallbacks.text_item].
Proof.
  destruct (content_items_coincide Fallbacks.json_absent
              [JObj [("content",
                      JArr [Responses.tagged_without_json; Fallbacks.text_item])]]
              eq_refl eq_refl) as (Hitems & _ & Htext & _).
  split; [ exact Hitems | exact Htext ].
Defined.

(** ** The display surface *)

Lemma request_failed_nonempty (response : HttpResponse) :
  request_failed response <> "".
Proof. unfold request_failed. simpl. discriminate. Qed.

(** The messages of the errors [fetchCurrentCo2] builds are not empty. *)
Lemma fetchCurrentCo2_message_nonempty `{Platform} (w : World) (m : string) :
  outcome (fetchCurrentCo2 w) = Throw (Error m) -> m <> "".
Proof.
  intro He.
  destruct (fetchCurrentCo2_Throw w (Error m) He)
    as [Hm | [Hm | [(response & _ & _ & Hm) | [Hm | [Hm | [Hm | [Hm | Hm]]]]]]];
    try discriminate; injection Hm as ->; try discriminate;
    apply request_failed_nonempty.
Qed.


Lemma loadReading_unfold `{Platform} (pm : exn -> string) (w : World) (s : Ui.State) :
  Ui.loadReading pm w s
  = (trace (fetchCurrentCo2 w),
     Ui.loadReading_settle pm (outcome (fetchCurrentCo2 w)) (Ui.loadReading_begin s)).
Proof.
  unfold Ui.loadReading, trace, outcome. now destruct (fetchCurrentCo2 w).
Qed.



(** X11.  A failed load displays the failure and hides, but keeps, an
    earlier reading: after [loadReading] the state holds the error's
    message, the reading it held before, and [loading] off; the view is the
    error view with that message whenever the message is not empty, which
    is the case for every error [fetchCurrentCo2] builds itself. *)
Theorem failed_load_displays_the_error `{Platform} :
  forall (pm : exn -> string) (w : World) (s : Ui.State) (e : exn),
    outcome (fetchCurrentCo2 w) = Throw e ->
    Ui.reading (snd (Ui.loadReading pm w s)) = Ui.reading s
    /\ Ui.error (snd (Ui.loadReading pm w s)) = Some (Ui.err_message pm e)
    /\ Ui.loading (snd (Ui.loadReading pm w s)) = false
    /\ (Ui.err_message pm e <> "" ->
        Ui.content (snd (Ui.loadReading pm w s)) = Ui.ErrorView (Ui.err_message pm e))
    /\ (forall m, e = Error m ->
                  Ui.content (snd (Ui.loadReading pm w s)) = Ui.ErrorView m).
Proof.
  intros pm w s e He.
  assert (Hview : Ui.err_message pm e <> "" ->
                  Ui.content (snd (Ui.loadReading pm w s))
                  = Ui.ErrorView (Ui.err_message pm e)).
  { intro Hne. rewrite loadReading_unfold, He. unfold Ui.content. simpl.
    rewrite (neq_empty_eqb _ Hne). reflexivity. }
  split; [ | split; [ | split; [ | split ] ] ].
  - rewrite loadReading_unfold, He. reflexivity.
  - rewrite loadReading_unfold, He. reflexivity.
  - rewrite loadReading_unfold, He. reflexivity.
  - exact Hview.
  - intros m ->. apply Hview. simpl.
    now apply fetchCurrentCo2_message_nonempty with w.
Qed.

Lemma failed_load_displays_the_error_witness :
  Ui.content (snd (Ui.loadReading (H := Sample.engine) (fun _ => "engine error")
                     Answers.unauthorized
                     {| Ui.reading := Some Sample.reading_object; Ui.loading := true;
                        Ui.error := None; Ui.refreshing := true |}))
  = Ui.ErrorView "OpenAI request failed: 401 Unauthorized - invalid key"
  /\ Ui.reading (snd (Ui.loadReading (H := Sample.engine) (fun _ => "engine error")
                        Answers.unauthorized
                        {| Ui.reading := Some Sample.reading_object; Ui.loading := true;
                           Ui.error := None; Ui.refreshing := true |}))
     = Some Sample.reading_object.
Proof.
  destruct (@failed_load_displays_the_error Sample.engine (fun _ => "engine error")
              Answers.unauthorized
              {| Ui.reading := Some Sample.reading_object; Ui.loading := true;
                 Ui.error := None; Ui.refreshing := true |}
              (Error "OpenAI request failed: 401 Unauthorized - invalid key") eq_refl)
    as (Hreading & _ & _ & _ & Hview).
  split; [ exact (Hview _ eq_refl) | exact Hreading ].
Defined.


Lemma content_without_loading (s : Ui.State) :
  Ui.loading s = false -> Ui.content s <> Ui.Spinner.
Proof.
  intro Hl. unfold Ui.content, Ui.reading_view. rewrite Hl. cbn [andb].
  destruct (Ui.error s) as [m | ].
  - destruct (negb (m =? "")); [ discriminate | ].
    destruct (Ui.reading s) as [r | ]; [ destruct (ToBoolean (Some r)) | ]; discriminate.
  - destruct (Ui.reading s) as [r | ]; [ destruct (ToBoolean (Some r)) | ]; discriminate.
Qed.

(** The view does not depend on [refreshing] once [loading] is off. *)
Lemma content_setRefreshing (b : bool) (s : Ui.State) :
  Ui.loading s = false -> Ui.content (Ui.setRefreshing b s) = Ui.content s.
Proof.
  intro Hl. unfold Ui.content. simpl. rewrite Hl. reflexivity.
Qed.

(** X13.  A completed refresh ends where a plain load ends.  From any
    state, [onRefresh] makes the same outside calls as [loadReading], leaves
    the same reading and error and the same view, and switches both
    [loading] and [refreshing] off; the view after either is never the
    activity indicator. *)
Theorem refresh_ends_like_a_load `{Platform} :
  forall (pm : exn -> string) (w : World) (s : Ui.State),
    fst (Ui.onRefresh pm w s) = fst (Ui.loadReading pm w s)
    /\ Ui.reading (snd (Ui.onRefresh pm w s)) = Ui.reading (snd (Ui.loadReading pm w s))
    /\ Ui.error (snd (Ui.onRefresh pm w s)) = Ui.error (snd (Ui.loadReading pm w s))
    /\ Ui.loading (snd (Ui.onRefresh pm w s)) = false
    /\ Ui.refreshing (snd (Ui.onRefresh pm w s)) = false
    /\ Ui.loading (snd (Ui.loadReading pm w s)) = false
    /\ Ui.content (snd (Ui.onRefresh pm w s)) = Ui.content (snd (Ui.loadReading pm w s))
    /\ Ui.content (snd (Ui.loadReading pm w s)) <> Ui.Spinner.
Proof.
  intros pm w s. unfold Ui.onRefresh. rewrite !loadReading_unfold.
  cbn [fst snd].
  assert (Hoff : forall s0,
             Ui.loading (Ui.loadReading_settle pm (outcome (fetchCurrentCo2 w)) s0)
             = false) by reflexivity.
  split; [ reflexivity | ].
  split; [ now destruct (outcome (fetchCurrentCo2 w)) | ].
  split; [ now destruct (outcome (fetchCurrentCo2 w)) | ].
  split; [ reflexivity | ].
  split; [ reflexivity | ].
  split; [ reflexivity | ].
  split; [ | apply content_without_loading, Hoff ].
  rewrite content_setRefreshing by apply Hoff.
  unfold Ui.content. rewrite !Hoff. cbn [andb].
  now destruct (outcome (fetchCurrentCo2 w)).
Qed.

(** X14.  A missing key is surfaced to the user without any request: when
    neither variable nor the configuration entry holds a non-empty key, a
    load makes no outside call and ends in the error view showing the
    missing-key message, whatever was displayed before. *)
Theorem missing_key_is_displayed `{Platform} :
  forall (pm : exn -> string) (w : World) (s : Ui.State),
    nonempty (EXPO_PUBLIC_OPENAI_API_KEY w) = false ->
    nonempty (OPENAI_API_KEY w) = false ->
    nonempty (extra_openaiApiKey w) = false ->
    fst (Ui.loadReading pm w s) = []
    /\ Ui.content (snd (Ui.loadReading pm w s)) = Ui.ErrorView App.MISSING_KEY
    /\ fst (Ui.onRefresh pm w s) = []
    /\ Ui.content (snd (Ui.onRefresh pm w s)) = Ui.ErrorView App.MISSING_KEY.
Proof.
  intros pm w s Hexpo Hopenai Hextra.
  assert (Hkey : getOpenAIApiKey w = None).
  { unfold getOpenAIApiKey.
    destruct (EXPO_PUBLIC_OPENAI_API_KEY w) as [k | ].
    - rewrite Hexpo, Hextra. reflexivity.
    - rewrite Hopenai, Hextra. reflexivity. }
  unfold Ui.onRefresh. rewrite !loadReading_unfold.
  rewrite (fetchCurrentCo2_without_key w Hkey). repeat split.
Qed.

Lemma missing_key_is_displayed_witness :
  Ui.loadReading (H := Sample.engine) (fun _ => "engine error")
    Worlds.no_credential Ui.initial
  = ([], {| Ui.reading := None; Ui.loading := false;
            Ui.error := Some App.MISSING_KEY; Ui.refreshing := false |})
  /\ Ui.content (snd (Ui.loadReading (H := Sample.engine) (fun _ => "engine error")
                        Worlds.no_credential Ui.initial))
     = Ui.ErrorView App.MISSING_KEY.
Proof.
  destruct (@missing_key_is_displayed Sample.engine (fun _ => "engine error")
              Worlds.no_credential Ui.initial eq_refl eq_refl eq_refl)
    as (_ & Hview & _).
  split; [ reflexivity | exact Hview ].
Defined.



(** ** The earlier version of the routine *)

Lemma Legacy_normalize_of_raw `{Platform} (json : value) (s : string) :
  Legacy.rawContent json = OK (Some (JStr s)) ->
  Legacy.normalize json
  = if s =? "" then Throw (Error App.NO_CONTENT)
    else match JSON_parse s with
         | Some parsed => App.validate parsed
         | None => Throw (Error App.PARSE_FAILED)
         end.
Proof.
  intro Hraw. unfold Legacy.normalize. rewrite Hraw. simpl.
  destruct (s =? ""); simpl; [ reflexivity | ].
  unfold JSON_parse_value. simpl. destruct (JSON_parse s); reflexivity.
Qed.

Lemma App_normalize_of_raw `{Platform} (json : value) (items : list value) (s : string) :
  App.contentItems json = OK items ->
  ToBoolean (opt_get (find App.isJsonContent items) "json")
  && jstype_eqb (typeof (opt_get (find App.isJsonContent items) "json")) TObject
  = false ->
  App.rawContentCandidate json items = Some (JStr s) ->
  App.normalize json
  = if s =? "" then Throw (Error App.NO_CONTENT)
    else match JSON_parse s with
         | Some parsed => App.validate parsed
         | None => Throw (Error App.PARSE_FAILED)
         end.
Proof.
  intros Hitems Hj Hraw.
  assert (Hcand : App.candidate json = App.text_tier json items).
  { unfold App.candidate. rewrite Hitems. simpl bind. cbv zeta.
    destruct (opt_get (find App.isJsonContent items) "json") as [parsed | ];
      [ now rewrite Hj | reflexivity ]. }
  unfold App.normalize. rewrite Hcand. unfold App.text_tier. rewrite Hraw. simpl.
  destruct (s =? ""); simpl; [ reflexivity | ].
  unfold JSON_parse_value. simpl. destruct (JSON_parse s); reflexivity.
Qed.

(** X16.  The present routine of the app accepts the replies the earlier
    version was written for.  When the first content item of the first
    output item has the type [output_text] and a string as [text], and no
    structured candidate is taken, the earlier version ([part_001]) and
    [src/App.tsx] select the same text and give the same result, reading
    or error. *)
Theorem legacy_replies_are_still_accepted `{Platform} :
  forall (json o it : value) (outs rest items : list value) (s : string),
    get json "output" = Some (JArr (o :: outs)) ->
    get o "content" = Some (JArr (it :: rest)) ->
    get it "type" = Some (JStr "output_text") ->
    get it "text" = Some (JStr s) ->
    App.contentItems json = OK items ->
    ToBoolean (opt_get (find App.isJsonContent items) "json")
    && jstype_eqb (typeof (opt_get (find App.isJsonContent items) "json")) TObject
    = false ->
    Legacy.rawContent json = OK (Some (JStr s))
    /\ App.rawContentCandidate json items = Some (JStr s)
    /\ Legacy.normalize json = App.normalize json.
Proof.
  intros json o it outs rest items s Hout Hcontent Htype Htext Hitems Hj.
  assert (Hlegacy : Legacy.rawContent json = OK (Some (JStr s))).
  { unfold Legacy.rawContent, Legacy.first_content.
    rewrite (get_prop_Some _ _ _ Hout). cbn [bind Legacy.opt_index0 nth_error].
    rewrite opt_get_Some_eq, Hcontent.
    cbn [Legacy.opt_find_output_text Legacy.find_output_text].
    rewrite (get_prop_Some _ _ _ Htype). cbn [bind].
    change (strict_eq_str (Some (JStr "output_text")) "output_text") with true.
    cbv iota. cbn [bind]. rewrite opt_get_Some_eq, Htext. reflexivity. }
  assert (Happ : App.rawContentCandidate json items = Some (JStr s)).
  { unfold App.contentItems in Hitems.
    rewrite (get_prop_Some _ _ _ Hout) in Hitems.
    cbn [bind] in Hitems.
    change (coalesce (Some (JArr (o :: outs))) (Some (JArr [])))
      with (Some (JArr (o :: outs))) in Hitems.
    cbn [App.flatMap_content] in Hitems. unfold App.content_of in Hitems.
    rewrite (get_prop_Some _ _ _ Hcontent) in Hitems.
    cbn [bind] in Hitems.
    change (coalesce (Some (JArr (it :: rest))) (Some (JArr [])))
      with (Some (JArr (it :: rest))) in Hitems.
    cbv iota in Hitems.
    destruct (App.flatMap_content outs) as [r | e]; cbn [bind] in Hitems;
      [ | discriminate ].
    injection Hitems as <-.
    unfold App.rawContentCandidate. cbn [app find].
    assert (Hit : App.isTextContent it = true).
    { destruct (get_Some_object _ _ _ Htext) as [iprops ->].
      unfold App.isTextContent. cbn in Htext |- *. rewrite Htext. reflexivity. }
    rewrite Hit. rewrite opt_get_Some_eq, Htext. reflexivity. }
  split; [ exact Hlegacy | split; [ exact Happ | ] ].
  rewrite (Legacy_normalize_of_raw _ _ Hlegacy).
  rewrite (App_normalize_of_raw _ _ _ Hitems Hj Happ). reflexivity.
Qed.

Lemma legacy_replies_are_still_accepted_witness :
  Legacy.normalize (H := Sample.engine)
    (JObj [("output", JArr [JObj [("content", JArr [Fallbacks.text_item])]])])
  = OK Sample.reading_object
  /\ App.normalize (H := Sample.engine)
       (JObj [("output", JArr [JObj [("content", JArr [Fallbacks.text_item])]])])
     = OK Sample.reading_object.
Proof.
  destruct (@legacy_replies_are_still_accepted Sample.engine
              (JObj [("output", JArr [JObj [("content", JArr [Fallbacks.text_item])]])])
              (JObj [("content", JArr [Fallbacks.text_item])])
              Fallbacks.text_item [] [] [Fallbacks.text_item] Sample.reading_text
              eq_refl eq_refl eq_refl eq_refl eq_refl eq_refl) as (_ & _ & Hsame).
  split; [ | rewrite <- Hsame ]; reflexivity.
Defined.

(** X17.  The earlier version reads the first output item only: two
    responses with the same first element of [output] and the same
    [output_text] get the same result, whatever the other elements of
    [output] hold. *)
Theorem legacy_reads_the_first_output_item_only `{Platform} :
  forall (json json' o : value) (outs outs' : list value),
    get json "output" = Some (JArr (o :: outs)) ->
    get json' "output" = Some (JArr (o :: outs')) ->
    get json "output_text" = get json' "output_text" ->
    Legacy.rawContent json = Legacy.rawContent json'
    /\ Legacy.normalize json = Legacy.normalize json'.
Proof.
  intros json json' o outs outs' Hout Hout' Htext.
  assert (Hraw : Legacy.rawContent json = Legacy.rawContent json').
  { unfold Legacy.rawContent, Legacy.first_content.
    rewrite (get_prop_Some _ _ _ Hout), (get_prop_Some _ _ _ Hout'), Htext.
    reflexivity. }
  split; [ exact Hraw | ]. unfold Legacy.normalize. now rewrite Hraw.
Qed.

Lemma legacy_reads_the_first_output_item_only_witness :
  Legacy.normalize (H := Sample.engine)
    (JObj [("output", JArr [JObj [("content", JArr [])];
                            JObj [("content", JArr [Fallbacks.text_item])]])])
  = Throw (Error App.NO_CONTENT)
  /\ App.normalize (H := Sample.engine)
       (JObj [("output", JArr [JObj [("content", JArr [])];
                               JObj [("content", JArr [Fallbacks.text_item])]])])
     = OK Sample.reading_object.
Proof.
  destruct (@legacy_reads_the_first_output_item_only Sample.engine
              (JObj [("output", JArr [JObj [("content", JArr [])];
                                      JObj [("content", JArr [Fallbacks.text_item])]])])
              (JObj [("output", JArr [JObj [("content", JArr [])]])])
              (JObj [("content", JArr [])])
              [JObj [("content", JArr [Fallbacks.text_item])]] []
              eq_refl eq_refl eq_refl) as [_ Hsame].
  split; [ rewrite Hsame | ]; reflexivity.
Defined.

Lemma find_output_text_without_text (l : list value) :
  Forall (fun it => it <> JNull /\ nullish (get it "text") = true) l ->
  exists found,
    Legacy.find_output_text l = OK found
    /\ nullish (opt_get found "text") = true.
Proof.
  induction 1 as [ | it rest [Hnull Htext] Hrest IH ]; simpl.
  - now exists None.
  - assert (Hget : get_prop it "type" = OK (get it "type")) by now destruct it.
    rewrite Hget. simpl.
    destruct (strict_eq_str (get it "type") "output_text").
    + exists (Some it). split; [ reflexivity | ]. now rewrite opt_get_Some_eq.
    + exact IH.
Qed.

(** X18.  The earlier version never reads a [json] field.  When no content
    item of the first output item carries a [text] (none is [null], and
    each has an absent or [null] [text]) and [output_text] is absent or
    falsy, it fails with the no-content error, whatever objects the items
    embed: a reply that holds its reading only in a structured item, which
    [src/App.tsx] returns, is lost on it. *)
Theorem legacy_ignores_structured_content `{Platform} :
  forall (json o : value) (outs l : list value),
    get json "output" = Some (JArr (o :: outs)) ->
    get o "content" = Some (JArr l) ->
    Forall (fun it => it <> JNull /\ nullish (get it "text") = true) l ->
    ToBoolean (get json "output_text") = false ->
    Legacy.normalize json = Throw (Error App.NO_CONTENT).
Proof.
  intros json o outs l Hout Hcontent Hl Htext.
  destruct (find_output_text_without_text l Hl) as (found & Hfound & Hnone).
  assert (Hfirst : nullish (opt_get (nth_error l 0) "text") = true).
  { destruct Hl as [ | it rest [_ Hit] _ ]; [ reflexivity | ].
    cbn [nth_error]. now rewrite opt_get_Some_eq. }
  assert (Hraw : Legacy.rawContent json = OK (get json "output_text")).
  { unfold Legacy.rawContent, Legacy.first_content.
    rewrite (get_prop_Some _ _ _ Hout). cbn [bind Legacy.opt_index0 nth_error].
    rewrite opt_get_Some_eq, Hcontent.
    cbn [Legacy.opt_find_output_text Legacy.opt_index0].
    rewrite Hfound. cbn [bind].
    unfold coalesce. rewrite Hnone, Hfirst. reflexivity. }
  unfold Legacy.normalize. rewrite Hraw. cbn [bind].
  destruct (get json "output_text") as [raw | ]; [ | reflexivity ].
  rewrite Htext. reflexivity.
Qed.

Lemma legacy_ignores_structured_content_witness :
  Legacy.normalize (H := Sample.engine) Sample.structured_response
  = Throw (Error App.NO_CONTENT)
  /\ App.normalize (H := Sample.engine) Sample.structured_response
     = OK Sample.reading_object.
Proof.
  split; [ | reflexivity ].
  apply (@legacy_ignores_structured_content Sample.engine Sample.structured_response
           (JObj [("content", JArr [Responses.tagged_with_reading])]) []
           [Responses.tagged_with_reading] eq_refl eq_refl);
    [ | reflexivity ].
  constructor; [ split; [ discriminate | reflexivity ] | constructor ].
Defined.

(** ** What validation hands on *)

(** X19.  Validation passes the candidate's own values on.  A reading the
    batch script validates holds the candidate's [source] and [timestamp]
    strings and the number [Number(ppm)], which is the candidate's [ppm]
    itself when that is a number; the app returns the candidate object
    unchanged, with whatever further fields it has. *)
Theorem validation_hands_on_the_candidate `{Platform} :
  (forall (reading : jsval) (r : Script.Reading),
      Script.validate reading = OK r ->
      Number (opt_get reading "ppm") = OK (Script.ppm r)
      /\ opt_get reading "source" = Some (JStr (Script.source r))
      /\ opt_get reading "timestamp" = Some (JStr (Script.timestamp r))
      /\ forall n, opt_get reading "ppm" = Some (JNum n) -> Script.ppm r = n)
  /\ (forall parsed v : value, App.validate parsed = OK v -> v = parsed).
Proof.
  split.
  - intros reading r. unfold Script.validate.
    destruct (Number (opt_get reading "ppm")) as [p | e] eqn:Hp; simpl; [ | discriminate ].
    destruct (opt_get reading "source") as [[ | | | s | | ] | ]; try discriminate.
    destruct (opt_get reading "timestamp") as [[ | | | t | | ] | ]; try discriminate.
    destruct (_ || _); [ discriminate | ].
    intro Hr. injection Hr as <-. simpl. repeat split.
    intros n Hn. rewrite Hn in Hp. simpl in Hp. now injection Hp.
  - intros parsed v Hv. now destruct (App_validate_OK parsed v Hv).
Qed.

Lemma validation_hands_on_the_candidate_witness :
  Number (H := Sample.engine) (opt_get (Some Sample.reading_object) "ppm")
  = OK Sample.ppm_421_3
  /\ Script.ppm Sample.reading = Sample.ppm_421_3.
Proof.
  destruct (@validation_hands_on_the_candidate Sample.engine) as [Hscript _].
  destruct (Hscript (Some Sample.reading_object) Sample.reading eq_refl)
    as (Hnumber & _ & _ & Hsame).
  split; [ exact Hnumber | exact (Hsame Sample.ppm_421_3 eq_refl) ].
Defined.
